(** * Agentic travel architect: the MCP search server and the LangGraph agent

    A shallow embedding of [src/mcp_server.py] (the [search_tourism] tool)
    and of [src/agent.py] (the planner / executor / writer graph, its
    checkpointed execution with an interrupt before the executor, and
    [main]), with the properties of the specification stated over them.

    Conventions.
    - A Python [str] is a [string]; one [ascii] stands for one code point,
      so [String.length] is Python's [len] and [content[:n]] is [slice_to n].
    - A Python exception is a value of [exn]: its class name, its [str(e)]
      and its [__cause__], or a group of exceptions.  Only instances of
      [Exception] are modelled (the class that both [except Exception]
      clauses of the sources catch); interpreter signals such as
      [KeyboardInterrupt] are outside the model.
    - Code that may raise returns a [Res]; code with effects runs in a state
      and error monad whose state carries an event log, so that what was
      called, and in which order, can be stated. *)

From Stdlib Require Import String Ascii List Arith Lia DecimalString.
From stdpp Require Import base option list gmap strings.

Set Default Proof Using "Type".

(** ** Python values shared by both programs *)

(** "\n" *)
Definition nl : string := String (ascii_of_nat 10) EmptyString.

(** [s[:n]] *)
Fixpoint slice_to (n : nat) (s : string) : string :=
  match n, s with
  | S n', String c s' => String c (slice_to n' s')
  | _, _ => EmptyString
  end.

(** [sep.join(parts)] *)
Definition join (sep : string) (parts : list string) : string :=
  String.concat sep parts.

(** [str(n)] for a non-negative [int] *)
Definition str_of_nat (n : nat) : string :=
  NilEmpty.string_of_uint (Nat.to_uint n).

(** [s * n] *)
Fixpoint str_mul (s : string) (n : nat) : string :=
  match n with
  | O => EmptyString
  | S n' => s +:+ str_mul s n'
  end.

(** Truth value of [x] where [x] is [None] or a [str]: [None] and [''] are
    falsy. *)
Definition truthy (x : option string) : bool :=
  match x with
  | Some s => negb (String.eqb s EmptyString)
  | None => false
  end.

(** [d.get(key, default)] on a key whose value, when present, is a [str]. *)
Definition get_or (x : option string) (default : string) : string :=
  match x with
  | Some s => s
  | None => default
  end.

(** An exception object: class name, [str(e)], [e.__cause__]; or an
    [ExceptionGroup] with its message and the exceptions it groups. *)
#[warnings="-register-all"]
Inductive exn : Type :=
| Exn (exc_type : string) (exc_str : string) (exc_cause : option exn)
| ExceptionGroup (message : string) (exceptions : list exn).

Definition exc_type (e : exn) : string :=
  match e with
  | Exn t _ _ => t
  | ExceptionGroup _ _ => "ExceptionGroup"
  end.

(** [str(e)]; for a group, the message and the number of its exceptions. *)
Definition exc_str (e : exn) : string :=
  match e with
  | Exn _ s _ => s
  | ExceptionGroup message exceptions =>
      let n := length exceptions in
      message +:+ " (" +:+ str_of_nat n +:+ " sub-exception" +:+
      (if Nat.eqb n 1 then EmptyString else "s") +:+ ")"
  end.

Definition exc_cause (e : exn) : option exn :=
  match e with
  | Exn _ _ c => c
  | ExceptionGroup _ _ => None
  end.

(** Outcome of a call: it returns a value or an exception propagates. *)
Inductive Res (A : Type) : Type :=
| Return (a : A)
| Raise (e : exn).
Arguments Return {A} a.
Arguments Raise {A} e.

(** ** The state and error monad *)

Definition M (S A : Type) : Type := S -> Res A * S.

Definition ret {S A} (a : A) : M S A := fun s => (Return a, s).

Definition raise {S A} (e : exn) : M S A := fun s => (Raise e, s).

Definition bind {S A B} (m : M S A) (k : A -> M S B) : M S B :=
  fun s =>
    match m s with
    | (Return a, s') => k a s'
    | (Raise e, s') => (Raise e, s')
    end.

(** [try: m  except Exception as e: h e] *)
Definition try_except {S A} (m : M S A) (h : exn -> M S A) : M S A :=
  fun s =>
    match m s with
    | (Return a, s') => (Return a, s')
    | (Raise e, s') => h e s'
    end.

Declare Scope py_scope.
Delimit Scope py_scope with py.
Notation "x <- m ;; k" := (bind m (fun x => k))
  (at level 100, m at next level, right associativity) : py_scope.
Notation "m ;; k" := (bind m (fun _ => k))
  (at level 100, right associativity) : py_scope.
Open Scope py_scope.

(** * src/mcp_server.py *)

Module McpServer.

Definition MAX_QUERIES_PER_BATCH : nat := 3.
Definition MAX_CHARS_PER_RESULT : nat := 300.

(** One entry of [response['results']]; [None] is an absent key. *)
Record SearchHit : Type := mkHit {
  title : option string;
  url : option string;
  content : option string
}.

(** The dict returned by [tavily.search]; [answer = None] is an absent key
    or a null value, [results = None] an absent key. *)
Record SearchResponse : Type := mkResponse {
  answer : option string;
  results : option (list SearchHit)
}.

(** What the server process does that can be observed from outside. *)
Inductive event : Type :=
| LogInfo (msg : string)
| LogError (msg : string)
| NewTavilyClient (api_key : string)
| TavilySearch (query : string) (search_depth : string) (max_results : nat)
    (include_answer : bool).

(** The environment of the server process: [os.getenv("TAVILY_API_KEY")],
    read once when the module is loaded, and the hosted search service, an
    opaque state [W] with the constructor of its client and the search call,
    each of which may raise. *)
Class Tavily : Type := {
  W : Type;
  TAVILY_API_KEY : option string;
  TavilyClient : string -> W -> Res unit * W;
  tavily_search : string -> W -> Res SearchResponse * W
}.

Section Server.

Context {tavily : Tavily}.

Record State : Type := mkState {
  service : W;
  log : list event
}.

Definition emit (ev : event) : M State unit :=
  fun s => (Return tt, mkState (service s) (log s ++ [ev])).

Definition logger_info (msg : string) : M State unit := emit (LogInfo msg).
Definition logger_error (msg : string) : M State unit := emit (LogError msg).

Definition new_client (api_key : string) : M State unit :=
  fun s =>
    let '(r, w) := TavilyClient api_key (service s) in
    (r, mkState w (log s ++ [NewTavilyClient api_key])).

Definition search (query : string) : M State SearchResponse :=
  fun s =>
    let '(r, w) := tavily_search query (service s) in
    (r, mkState w (log s ++ [TavilySearch query "basic" 2 true])).

(** Line 79: [content[:MAX] + "..." if len(content) > MAX else content]. *)
Definition clean_content (content : string) : string :=
  if MAX_CHARS_PER_RESULT <? String.length content
  then slice_to MAX_CHARS_PER_RESULT content +:+ "..."
  else content.

(** Lines 81-85: the text added to [summary] for one result. *)
Definition format_hit (res : SearchHit) : string :=
  "- **Title**: " +:+ get_or (title res) "N/A" +:+ nl +:+
  "  **Link**: " +:+ get_or (url res) "#" +:+ nl +:+
  "  **Content**: " +:+ clean_content (get_or (content res) "") +:+ nl +:+ nl.

(** Lines 69-85: the section of a query whose search returned. *)
Definition format_response (query : string) (response : SearchResponse) : string :=
  let summary := "### Results for: '" +:+ query +:+ "'" +:+ nl in
  let summary :=
    if truthy (answer response)
    then summary +:+ "**AI Summary**: " +:+ get_or (answer response) "" +:+ nl +:+ nl
    else summary in
  fold_left (fun summary res => summary +:+ format_hit res)
    (default [] (results response)) summary.

(** Line 91: the section of a query whose search raised. *)
Definition error_line (query : string) (e : exn) : string :=
  "Error searching '" +:+ query +:+ "': " +:+ exc_str e.

(** Lines 55-91: one iteration of the loop; the value is the string appended
    to [consolidated_results]. *)
Definition search_one (query : string) : M State string :=
  try_except
    (logger_info ("Searching Tavily: '" +:+ query +:+ "'") ;;
     response <- search query ;;
     ret (format_response query response))
    (fun e =>
       logger_error ("Search failed for '" +:+ query +:+ "': " +:+ exc_str e) ;;
       ret (error_line query e)).

(** Lines 54-91: the loop, threading [consolidated_results]. *)
Fixpoint execution_loop (processing_queries : list string)
    (consolidated_results : list string) : M State (list string) :=
  match processing_queries with
  | [] => ret consolidated_results
  | query :: rest =>
      section <- search_one query ;;
      execution_loop rest (consolidated_results ++ [section])
  end.

(** Line 95. *)
Definition skipped_note (queries : list string) : string :=
  nl +:+ "*Note: " +:+ str_of_nat (length queries - MAX_QUERIES_PER_BATCH) +:+
  " queries were skipped to conserve resources.*".

Definition search_tourism (queries : list string) : M State string :=
  if negb (truthy TAVILY_API_KEY) then
    logger_error "TAVILY_API_KEY is missing. Aborting search." ;;
    ret "Error: Server misconfigured (Missing API Key)."
  else
    let processing_queries := take MAX_QUERIES_PER_BATCH queries in
    logger_info ("Processing " +:+ str_of_nat (length processing_queries) +:+
                 " queries (Requested: " +:+ str_of_nat (length queries) +:+ ")") ;;
    new_client (get_or TAVILY_API_KEY "") ;;
    consolidated_results <- execution_loop processing_queries [] ;;
    let consolidated_results :=
      if MAX_QUERIES_PER_BATCH <? length queries
      then consolidated_results ++ [skipped_note queries]
      else consolidated_results in
    ret (join nl consolidated_results).

(** What the service answers to the queries of a loop, in call order,
    starting from the service state [w]. *)
Fixpoint answers (processing_queries : list string) (w : W) :
    list (Res SearchResponse) :=
  match processing_queries with
  | [] => []
  | query :: rest =>
      let '(r, w') := tavily_search query w in r :: answers rest w'
  end.

(** The section of a query, given what the service answered to it. *)
Definition section_of (query : string) (r : Res SearchResponse) : string :=
  match r with
  | Return response => format_response query response
  | Raise e => error_line query e
  end.

(** The queries handed to [tavily.search], in call order. *)
Definition searched (evs : list event) : list string :=
  omap (fun ev => match ev with TavilySearch q _ _ _ => Some q | _ => None end) evs.

(** A search request with the parameters of line 61-66: basic depth, two
    results at most, with the generated answer.  Other events qualify. *)
Definition basic_request (ev : event) : Prop :=
  match ev with
  | TavilySearch _ search_depth max_results include_answer =>
      search_depth = "basic" /\ max_results = 2 /\ include_answer = true
  | _ => True
  end.

(** Lines 69-73: the header of a section and its optional summary line. *)
Definition section_head (query : string) (response : SearchResponse) : string :=
  "### Results for: '" +:+ query +:+ "'" +:+ nl +:+
  (if truthy (answer response)
   then "**AI Summary**: " +:+ get_or (answer response) "" +:+ nl +:+ nl
   else EmptyString).

End Server.

End McpServer.

(** * src/agent.py *)

Module Agent.

(** [c.lower()] and [c.upper()] on the letters of ASCII. *)
Definition lower_char (c : ascii) : ascii :=
  let n := nat_of_ascii c in
  if (65 <=? n) && (n <=? 90) then ascii_of_nat (n + 32) else c.

Definition upper_char (c : ascii) : ascii :=
  let n := nat_of_ascii c in
  if (97 <=? n) && (n <=? 122) then ascii_of_nat (n - 32) else c.

Fixpoint str_map (f : ascii -> ascii) (s : string) : string :=
  match s with
  | EmptyString => EmptyString
  | String c s' => String (f c) (str_map f s')
  end.

Definition lower : string -> string := str_map lower_char.
Definition upper : string -> string := str_map upper_char.

(** Modelled from the spec: [schemas.py] is not under src/.  [SearchStrategy]
    is the StrategyObject of the data model, a reasoning text and an ordered
    sequence of queries; these are the two attributes [agent.py] reads. *)
Record SearchStrategy : Type := mkStrategy {
  reasoning : string;
  queries : list string
}.

(** The content blocks of an MCP [CallToolResult]. *)
Inductive ContentBlock : Type :=
| TextContent (text : string)
| ImageContent (data mimeType : string)
| AudioContent (data mimeType : string)
| ResourceLink (uri : string)
| EmbeddedResource (uri : string).

(** [content.type] *)
Definition type (content : ContentBlock) : string :=
  match content with
  | TextContent _ => "text"
  | ImageContent _ _ => "image"
  | AudioContent _ _ => "audio"
  | ResourceLink _ => "resource_link"
  | EmbeddedResource _ => "resource"
  end.

(** [content.text]; only [TextContent] has the attribute, and the source
    reads it only after the test on [content.type]. *)
Definition text (content : ContentBlock) : string :=
  match content with
  | TextContent t => t
  | _ => EmptyString
  end.

(** What the agent process does that can be observed from outside. *)
Inductive event : Type :=
| Log (level msg : string)
| LLMInvoke (schema system human : string)
| StdioSpawn (command : string) (args : list string)
| StdioClose
| SessionInitialize
| SessionListTools
| SessionCallTool (name : string) (queries : list string)
| Print (line : string)
| Input (prompt : string)
| SaveItinerary.

(** The calls that reach the tool process: spawning it and every request of
    the client session. *)
Definition is_transport (ev : event) : bool :=
  match ev with
  | StdioSpawn _ _ | SessionInitialize | SessionListTools | SessionCallTool _ _ => true
  | _ => false
  end.

Definition is_spawn (ev : event) : bool :=
  match ev with
  | StdioSpawn _ _ => true
  | _ => false
  end.

Definition is_llm (ev : event) : bool :=
  match ev with
  | LLMInvoke _ _ _ => true
  | _ => false
  end.

(** The collaborators of the agent process.  [TripItinerary] (schemas.py)
    and [save_itinerary_to_markdown] (outputs.py) are not under src/ and are
    taken as parameters, with the two attributes of an itinerary that
    [main] prints.  The language model and the tool process are
    deterministic stubs: a call returns a value or raises.  The exits of the
    two context managers of the transport return when their body returned. *)
Class Collaborators : Type := {
  TripItinerary : Type;
  destination : TripItinerary -> string;
  overview : TripItinerary -> string;
  (** [datetime.datetime.now().strftime("%Y-%m-%d")] *)
  current_date : string;
  sys_executable : string;
  (** [llm.with_structured_output(SearchStrategy).invoke([system, human])] *)
  invoke_SearchStrategy : string -> string -> Res SearchStrategy;
  (** [llm.with_structured_output(TripItinerary).invoke([system, human])] *)
  invoke_TripItinerary : string -> string -> Res TripItinerary;
  (** entering [stdio_client(server_params)] *)
  stdio_client : string -> list string -> Res unit;
  (** [session.initialize()] *)
  initialize : Res unit;
  (** [session.list_tools()], the names of the tools *)
  list_tools : Res (list string);
  (** [session.call_tool(name, arguments={"queries": queries})], the
      [content] of the result *)
  call_tool : string -> list string -> Res (list ContentBlock);
  (** How the exit of [stdio_client] and the exit of [ClientSession] pass
      on an exception raised inside them (both are built on task groups,
      which put it in an [ExceptionGroup]) *)
  stdio_client_exit : exn -> exn;
  session_exit : exn -> exn;
  save_itinerary_to_markdown : TripItinerary -> Res (option string);
  abspath : string -> string;
  (** [repr] of a list of strings *)
  repr : list string -> string;
  (** [str.upper] *)
  str_upper : string -> string
}.

Section Agent.

Context {world : Collaborators}.

(** [AgentState]: a [TypedDict]; [None] is a key that is not set. *)
Record AgentState : Type := mkAgentState {
  user_request : option string;
  search_strategy : option SearchStrategy;
  search_results : option string;
  final_itinerary : option TripItinerary
}.

Definition empty_state : AgentState := mkAgentState None None None None.

(** The nodes of the graph and what a checkpoint can have next: the start
    of the graph with the input of the run waiting in its channel, a node,
    or the end. *)
Inductive node : Type := planner | executor | writer.
Inductive target : Type := START (input : AgentState) | Node (n : node) | END.

#[global] Instance node_eq_dec : EqDecision node.
Proof. solve_decision. Defined.

(** A checkpoint: the values of the state channels and the node to run
    next. *)
Record Checkpoint : Type := mkCheckpoint {
  values : AgentState;
  next : target
}.

(** The state of the agent process: the [MemorySaver], which keeps for each
    thread id every checkpoint written, the latest first, and the events so
    far. *)
Record State : Type := mkState {
  memory : gmap string (list Checkpoint);
  trace : list event
}.

(** A process that has just loaded the module: [memory = MemorySaver()]. *)
Definition fresh_process : State := mkState ∅ [].

Definition emit (ev : event) : M State unit :=
  fun s => (Return tt, mkState (memory s) (trace s ++ [ev])).

(** [level=logging.INFO]: records below INFO are dropped. *)
Definition logger_info (msg : string) : M State unit := emit (Log "INFO" msg).
Definition logger_warning (msg : string) : M State unit := emit (Log "WARNING" msg).
Definition logger_error (msg : string) : M State unit := emit (Log "ERROR" msg).
Definition logger_debug (msg : string) : M State unit := ret tt.

Definition print (line : string) : M State unit := emit (Print line).

(** A call of a collaborator: the event, then its outcome. *)
Definition call {A} (ev : event) (outcome : Res A) : M State A :=
  fun s => (outcome, mkState (memory s) (trace s ++ [ev])).

(** [d[key]] *)
Definition getitem {A} (key : string) (x : option A) : M State A :=
  match x with
  | Some a => ret a
  | None => raise (Exn "KeyError" ("'" +:+ key +:+ "'") None)
  end.

(** [async with cm as x: body]: [enter] may raise, and then the body does
    not run; once entered, [exit_] runs however the body is left, and an
    exception of the body leaves the block as the exit passes it on
    ([pass_on]). *)
Definition async_with {A B} (enter : M State A) (exit_ : M State unit)
    (pass_on : exn -> exn) (body : A -> M State B) : M State B :=
  fun s =>
    match enter s with
    | (Return a, s1) =>
        match body a s1 with
        | (Return b, s2) => (Return b, snd (exit_ s2))
        | (Raise e, s2) => (Raise (pass_on e), snd (exit_ s2))
        end
    | (Raise e, s1) => (Raise e, s1)
    end.

(** ** Node definitions *)

Definition planner_system_prompt : string :=
  "You are a Travel Architect & Logistics Expert. " +:+
  "Current Date: " +:+ current_date +:+ "." +:+ nl +:+ nl +:+
  "Your goal is to design a targeted information retrieval strategy. " +:+
  "Do not generate the itinerary yet. Focus purely on HOW to find the best data." +:+ nl +:+ nl +:+
  "Guidelines:" +:+ nl +:+
  "1. Use search-engine friendly keywords." +:+ nl +:+
  "2. Plan queries for attractions, hidden gems, and logistics." +:+ nl +:+
  "3. Target specific historical eras or sites if requested." +:+ nl +:+ nl +:+
  "Explain in 'reasoning' why these searches are necessary.".

Definition planner_node (state : AgentState) : M State AgentState :=
  logger_info "Planner Node: Generating search strategy." ;;
  let system_prompt := planner_system_prompt in
  request <- getitem "user_request" (user_request state) ;;
  strategy <- call (LLMInvoke "SearchStrategy" system_prompt request)
                (invoke_SearchStrategy system_prompt request) ;;
  ret (mkAgentState None (Some strategy) None None).

(** Lines 118-121: the text of the blocks of type "text", in order. *)
Definition extract_text (result_content : list ContentBlock) : string :=
  fold_left
    (fun final_text content =>
       if String.eqb (type content) "text" then final_text +:+ text content
       else final_text)
    result_content EmptyString.

Definition executor_node (state : AgentState) : M State AgentState :=
  logger_info "Executor Node: Connecting to MCP Server." ;;
  strategy <- getitem "search_strategy" (search_strategy state) ;;
  let queries := queries strategy in
  try_except
    (async_with
       (call (StdioSpawn sys_executable ["mcp_server.py"])
          (stdio_client sys_executable ["mcp_server.py"]))
       (emit StdioClose)
       stdio_client_exit
       (fun _ =>
          async_with (ret tt) (ret tt) session_exit
            (fun _ =>
               call SessionInitialize initialize ;;
               tools <- call SessionListTools list_tools ;;
               logger_debug "Connected. Tools: ..." ;;
               logger_info ("Executing search for " +:+
                            str_of_nat (length queries) +:+ " queries.") ;;
               result_content <- call (SessionCallTool "search_tourism" queries)
                                   (call_tool "search_tourism" queries) ;;
               let final_text := extract_text result_content in
               logger_info "Search completed successfully." ;;
               logger_debug ("Raw Search Results: " +:+ slice_to 100 final_text +:+
                             "...") ;;
               ret (mkAgentState None None (Some final_text) None))))
    (fun e =>
       logger_error ("Failed to execute MCP tool: " +:+ exc_str e) ;;
       raise e).

Definition writer_system_prompt : string :=
  "You are an expert Travel Guide. " +:+
  "Synthesize a logical itinerary based STRICTLY on the provided search results. " +:+
  "Ensure activities follow a realistic time flow. " +:+
  "Do not invent specific details (like prices) if missing from context.".

(** The human message of the writer. *)
Definition writer_context (request results : string) : string :=
  "User Request: " +:+ request +:+ nl +:+ nl +:+ "Search Context: " +:+ results.

Definition writer_node (state : AgentState) : M State AgentState :=
  logger_info "Writer Node: Composing final itinerary." ;;
  let system_prompt := writer_system_prompt in
  request <- getitem "user_request" (user_request state) ;;
  results <- getitem "search_results" (search_results state) ;;
  let human := writer_context request results in
  res <- call (LLMInvoke "TripItinerary" system_prompt human)
           (invoke_TripItinerary system_prompt human) ;;
  ret (mkAgentState None None None (Some res)).

(** ** Graph construction *)

(** [workflow.add_node] *)
Definition node_fn (n : node) : AgentState -> M State AgentState :=
  match n with
  | planner => planner_node
  | executor => executor_node
  | writer => writer_node
  end.

(** [workflow.set_entry_point] and [workflow.add_edge] *)
Definition entry_point : node := planner.

Definition edge (n : node) : target :=
  match n with
  | planner => Node executor
  | executor => Node writer
  | writer => END
  end.

(** ** The graph executor (LangGraph) with its checkpointer

    A state key has a last-value channel: the update a node returns
    overwrites the keys it names and leaves the others. *)
Definition write {A} (old new : option A) : option A :=
  match new with
  | Some v => Some v
  | None => old
  end.

Definition apply_writes (state update : AgentState) : AgentState :=
  mkAgentState
    (write (user_request state) (user_request update))
    (write (search_strategy state) (search_strategy update))
    (write (search_results state) (search_results update))
    (write (final_itinerary state) (final_itinerary update)).

(** [MemorySaver.put] and the latest checkpoint of a thread. *)
Definition put (thread_id : string) (cp : Checkpoint) : M State unit :=
  fun s =>
    (Return tt,
     mkState (<[thread_id := cp :: default [] (memory s !! thread_id)]> (memory s))
       (trace s)).

Definition latest (thread_id : string) (s : State) : option Checkpoint :=
  memory s !! thread_id ≫= head.

Definition get_tuple (thread_id : string) : M State (option Checkpoint) :=
  fun s => (Return (latest thread_id s), s).

(** One superstep: run the node, apply its update, write the checkpoint.
    When the node raises nothing is written. *)
Definition superstep (thread_id : string) (cp : Checkpoint) (n : node) :
    M State Checkpoint :=
  update <- node_fn n (values cp) ;;
  let cp' := mkCheckpoint (apply_writes (values cp) update) (edge n) in
  put thread_id cp' ;;
  ret cp'.

(** The default [recursion_limit] of a run. *)
Definition recursion_limit : nat := 25.

(** The loop of a run.  At the start of the graph a step applies the input
    waiting in its channel and leads to the entry point.  A node named in
    [interrupt_before] stops the run before it executes, unless the run
    resumes ([resuming]) from the very checkpoint at which it was
    interrupted. *)
Fixpoint pregel_loop (steps : nat) (interrupt_before : list node)
    (thread_id : string) (resuming : bool) (cp : Checkpoint) : M State AgentState :=
  match next cp with
  | END => ret (values cp)
  | START writes =>
      match steps with
      | O => raise (Exn "GraphRecursionError" "Recursion limit reached" None)
      | S steps' =>
          let cp' :=
            mkCheckpoint (apply_writes (values cp) writes) (Node entry_point) in
          put thread_id cp' ;;
          pregel_loop steps' interrupt_before thread_id false cp'
      end
  | Node n =>
      if negb resuming && bool_decide (n ∈ interrupt_before) then ret (values cp)
      else
        match steps with
        | O => raise (Exn "GraphRecursionError" "Recursion limit reached" None)
        | S steps' =>
            cp' <- superstep thread_id cp n ;;
            pregel_loop steps' interrupt_before thread_id false cp'
        end
  end.

(** A run of the compiled graph on a thread: with an input it writes a
    checkpoint that has the values saved so far (none on a new thread) and
    the input waiting at the start of the graph, then runs the loop; with
    [None] it resumes from the latest checkpoint of the thread, and raises
    when there is none. *)
Definition run (interrupt_before : list node) (input : option AgentState)
    (thread_id : string) : M State AgentState :=
  saved <- get_tuple thread_id ;;
  match input with
  | Some writes =>
      let cp :=
        mkCheckpoint (default empty_state (values <$> saved)) (START writes) in
      put thread_id cp ;;
      pregel_loop recursion_limit interrupt_before thread_id false cp
  | None =>
      match saved with
      | Some cp => pregel_loop recursion_limit interrupt_before thread_id true cp
      | None => raise (Exn "EmptyInputError" "Received no input for __start__" None)
      end
  end.

(** [app = workflow.compile(checkpointer=memory, interrupt_before=["executor"])] *)
Definition interrupt_before : list node := [executor].

Definition ainvoke : option AgentState -> string -> M State AgentState :=
  run interrupt_before.

(** [async for event in app.astream(...): pass] *)
Definition astream (input : option AgentState) (thread_id : string) : M State unit :=
  run interrupt_before input thread_id ;; ret tt.

(** [(await app.aget_state(config)).values] *)
Definition aget_state (thread_id : string) : M State AgentState :=
  saved <- get_tuple thread_id ;;
  ret (default empty_state (values <$> saved)).

(** The same graph compiled without an interrupt: the uninterrupted run. *)
Definition ainvoke_uninterrupted : option AgentState -> string -> M State AgentState :=
  run [].

(** ** Main execution

    [thread_id] is the fresh uuid, [user_input] the request (a constant of
    the source, taken as a parameter here) and [approval] the line read by
    [input]. *)
Definition main (thread_id user_input approval : string) : M State unit :=
  logger_info ("Starting Session ID: " +:+ thread_id) ;;
  logger_info ("Processing request: " +:+ user_input) ;;
  astream (Some (mkAgentState (Some user_input) None None None)) thread_id ;;
  current_state <- aget_state thread_id ;;
  strategy <- getitem "search_strategy" (search_strategy current_state) ;;
  print (nl +:+ ">>> APPROVAL REQUIRED <<<") ;;
  print ("Reasoning: " +:+ reasoning strategy) ;;
  print ("Queries: " +:+ repr (queries strategy) +:+ nl) ;;
  emit (Input "Approve Execution? (y/n): ") ;;
  if String.eqb (lower approval) "y" then
    logger_info "Plan approved. Resuming execution..." ;;
    result <- ainvoke None thread_id ;;
    final_trip <- getitem "final_itinerary" (final_itinerary result) ;;
    print (nl +:+ str_mul "=" 60) ;;
    print ("TRIP DESTINATION: " +:+ str_upper (destination final_trip)) ;;
    print (str_mul "=" 60) ;;
    print ("Overview: " +:+ slice_to 150 (overview final_trip) +:+ "..." +:+ nl) ;;
    print "(Generating full report...)" ;;
    filename <- call SaveItinerary (save_itinerary_to_markdown final_trip) ;;
    if truthy filename
    then print ("SUCCESS! Itinerary saved to: " +:+ abspath (get_or filename ""))
    else ret tt
  else
    logger_warning "Plan rejected by user. Terminating process.".

(** The process exits and the program is started again: the module level
    runs again, so [memory] is a new, empty [MemorySaver]; what the outside
    world has seen stays. *)
Definition restart (s : State) : State := mkState ∅ (trace s).

(** The transport calls among the events. *)
Definition transport_calls (evs : list event) : list event :=
  filter (fun ev => is_transport ev = true) evs.

(** ** Vocabulary of the properties *)

(** The input of a session: only the request is set. *)
Definition initial_input (user_input : string) : AgentState :=
  mkAgentState (Some user_input) None None None.

(** Every checkpoint written for a thread, the latest first. *)
Definition history (thread_id : string) (s : State) : list Checkpoint :=
  default [] (memory s !! thread_id).

(** The fields are set in pipeline order. *)
Definition pipeline_order (st : AgentState) : Prop :=
  (is_Some (search_results st) -> is_Some (search_strategy st)) /\
  (is_Some (final_itinerary st) -> is_Some (search_results st)).

(** Every field set in [old] has the same value in [new]. *)
Definition preserved (old new : AgentState) : Prop :=
  (forall v, user_request old = Some v -> user_request new = Some v) /\
  (forall v, search_strategy old = Some v -> search_strategy new = Some v) /\
  (forall v, search_results old = Some v -> search_results new = Some v) /\
  (forall v, final_itinerary old = Some v -> final_itinerary new = Some v).

(** What is set at each stage of a session on the request [user_input]:
    nothing while the input waits at the start, then the request, and one
    more field after each node. *)
Definition staged (user_input : string) (cp : Checkpoint) : Prop :=
  match next cp with
  | START writes =>
      values cp = empty_state /\ writes = initial_input user_input
  | Node planner =>
      user_request (values cp) = Some user_input /\
      search_strategy (values cp) = None /\ search_results (values cp) = None /\
      final_itinerary (values cp) = None
  | Node executor =>
      user_request (values cp) = Some user_input /\
      is_Some (search_strategy (values cp)) /\ search_results (values cp) = None /\
      final_itinerary (values cp) = None
  | Node writer =>
      user_request (values cp) = Some user_input /\
      is_Some (search_strategy (values cp)) /\ is_Some (search_results (values cp)) /\
      final_itinerary (values cp) = None
  | END =>
      user_request (values cp) = Some user_input /\
      is_Some (search_strategy (values cp)) /\ is_Some (search_results (values cp)) /\
      is_Some (final_itinerary (values cp))
  end.

(** A history in which every checkpoint is at a stage of the session and
    every checkpoint keeps what the one before it had set. *)
Fixpoint chain (user_input : string) (h : list Checkpoint) : Prop :=
  match h with
  | [] => True
  | cp :: older =>
      staged user_input cp /\
      match older with
      | [] => True
      | prev :: _ => preserved (values prev) (values cp)
      end /\
      chain user_input older
  end.

(** The update a node returns sets the key of the node and no other. *)
Definition node_update (n : node) (update : AgentState) : Prop :=
  user_request update = None /\
  match n with
  | planner =>
      is_Some (search_strategy update) /\ search_results update = None /\
      final_itinerary update = None
  | executor =>
      search_strategy update = None /\ is_Some (search_results update) /\
      final_itinerary update = None
  | writer =>
      search_strategy update = None /\ search_results update = None /\
      is_Some (final_itinerary update)
  end.

(** [m] leads from a state with [P] to a state with [Q], whether it returns
    or raises. *)
Definition hoare {A} (P : State -> Prop) (m : M State A) (Q : State -> Prop) : Prop :=
  forall s, P s -> Q (m s).2.

(** A property of the memory alone is kept by whatever only adds events. *)
Definition of_memory (P : State -> Prop) : Prop :=
  forall s s', memory s = memory s' -> P s -> P s'.

(** A property of the transport calls alone. *)
Definition of_transport (P : State -> Prop) : Prop :=
  forall s s', transport_calls (trace s) = transport_calls (trace s') -> P s -> P s'.

(** The first transport step of the executor that fails raises [e]: the
    spawn, the handshake, the capability discovery or the tool call. *)
Definition transport_fails (queries : list string) (e : exn) : Prop :=
  stdio_client sys_executable ["mcp_server.py"] = Raise e \/
  stdio_client sys_executable ["mcp_server.py"] = Return tt /\
  (initialize = Raise e \/
   initialize = Return tt /\
   (list_tools = Raise e \/
    (exists tools, list_tools = Return tools) /\
    call_tool "search_tourism" queries = Raise e)).

(** The exception that reaches the [except] clause of the executor when the
    first failing transport step raises [e]: a failure of the spawn reaches
    it as it is; a failure inside the session is passed on by the exit of
    the session, then by the exit of the stdio client. *)
Definition caught (e : exn) : exn :=
  match stdio_client sys_executable ["mcp_server.py"] with
  | Raise _ => e
  | Return _ => stdio_client_exit (session_exit e)
  end.

(** The spawns of the tool process among the events. *)
Definition spawns (evs : list event) : list event :=
  filter (fun ev => is_spawn ev = true) evs.

(** The calls of the language model among the events. *)
Definition llm_calls (evs : list event) : list event :=
  filter (fun ev => is_llm ev = true) evs.

Definition is_close (ev : event) : bool :=
  match ev with
  | StdioClose => true
  | _ => false
  end.

(** The releases of the tool process among the events. *)
Definition closes (evs : list event) : list event :=
  filter (fun ev => is_close ev = true) evs.

End Agent.

End Agent.

(** * Stubs for concrete runs *)

Module Stubs.
Import McpServer.

(** A stub of the search service for concrete runs: the service state counts
    the calls, the query "down" fails, every other query has one long hit. *)
Definition stub_response : SearchResponse :=
  mkResponse (Some "Rio in short")
    (Some [mkHit (Some "Guide") (Some "https://example.org") (Some (str_mul "a" 301))]).

Definition stub_tavily (key : option string) : Tavily := {|
  W := nat;
  TAVILY_API_KEY := key;
  TavilyClient := fun _ w => (Return tt, w);
  tavily_search := fun q w =>
    (if String.eqb q "down" then Raise (Exn "ConnectionError" "timed out" None)
     else Return stub_response, S w)
|}.

Definition stub_start {key : option string} : @State (stub_tavily key) :=
  @mkState (stub_tavily key) 0 [].

Definition five_queries : list string := ["rio"; "down"; "lapa"; "samba"; "hike"].

(** A service whose client cannot be constructed. *)
Definition stub_tavily_rejecting : Tavily := {|
  W := nat;
  TAVILY_API_KEY := Some "tvly-key";
  TavilyClient := fun _ w =>
    (Raise (Exn "InvalidAPIKeyError" "Unauthorized: invalid API key." None), w);
  tavily_search := fun _ w => (Return stub_response, S w)
|}.

(** Stubs of the collaborators of the agent: the planner returns a fixed
    strategy, the writer a fixed itinerary, the tool call three blocks of
    which two are text; the outcome of the handshake is a parameter. *)
Record Trip : Type := mkTrip {
  trip_destination : string;
  trip_overview : string
}.

Definition stub_strategy : Agent.SearchStrategy :=
  Agent.mkStrategy "Bohemian culture, one hike and live samba."
    ["Santa Teresa guide"; "Morro Dois Irmaos hike"; "Roda de Samba Lapa"].

Definition stub_trip : Trip :=
  mkTrip "Rio de Janeiro" "Three days away from the beaches.".

Definition stub_blocks : list Agent.ContentBlock :=
  [Agent.TextContent "### Results for: 'Santa Teresa guide'";
   Agent.ImageContent "iVBORw0KGgo" "image/png";
   Agent.TextContent " (two more sections)"].

Definition handshake_timeout : exn :=
  Exn "TimeoutError" "handshake timed out" None.

(** What the exit of a task group raises when its body raised [e]. *)
Definition task_group_error (e : exn) : exn :=
  ExceptionGroup "unhandled errors in a TaskGroup" [e].

Definition stub_world (handshake : Res unit) : Agent.Collaborators := {|
  Agent.TripItinerary := Trip;
  Agent.destination := trip_destination;
  Agent.overview := trip_overview;
  Agent.current_date := "2025-01-15";
  Agent.sys_executable := "/usr/bin/python3";
  Agent.invoke_SearchStrategy := fun _ _ => Return stub_strategy;
  Agent.invoke_TripItinerary := fun _ _ => Return stub_trip;
  Agent.stdio_client := fun _ _ => Return tt;
  Agent.initialize := handshake;
  Agent.list_tools := Return ["search_tourism"];
  Agent.call_tool := fun _ _ => Return stub_blocks;
  Agent.stdio_client_exit := task_group_error;
  Agent.session_exit := task_group_error;
  Agent.save_itinerary_to_markdown := fun _ => Return (Some "itinerary.md");
  Agent.abspath := fun f => "/home/user/" +:+ f;
  Agent.repr := fun l => "[" +:+ join ", " l +:+ "]";
  Agent.str_upper := Agent.upper
|}.

Definition quota_exceeded : exn :=
  Exn "ResourceExhausted" "429 quota exceeded" None.

(** The same collaborators with a language model that refuses to plan. *)
Definition stub_world_unplanned : Agent.Collaborators := {|
  Agent.TripItinerary := Trip;
  Agent.destination := trip_destination;
  Agent.overview := trip_overview;
  Agent.current_date := "2025-01-15";
  Agent.sys_executable := "/usr/bin/python3";
  Agent.invoke_SearchStrategy := fun _ _ => Raise quota_exceeded;
  Agent.invoke_TripItinerary := fun _ _ => Return stub_trip;
  Agent.stdio_client := fun _ _ => Return tt;
  Agent.initialize := Return tt;
  Agent.list_tools := Return ["search_tourism"];
  Agent.call_tool := fun _ _ => Return stub_blocks;
  Agent.stdio_client_exit := task_group_error;
  Agent.session_exit := task_group_error;
  Agent.save_itinerary_to_markdown := fun _ => Return (Some "itinerary.md");
  Agent.abspath := fun f => "/home/user/" +:+ f;
  Agent.repr := fun l => "[" +:+ join ", " l +:+ "]";
  Agent.str_upper := Agent.upper
|}.

Definition rio_request : string := "I want a 3-day trip to Rio de Janeiro, Brazil.".

End Stubs.

(** * Equations of the monad *)

Lemma bind_Return {S A B} (m : M S A) (k : A -> M S B) s a s' :
  m s = (Return a, s') -> bind m k s = k a s'.
Proof. intros H. unfold bind. now rewrite H. Qed.

Lemma bind_Raise {S A B} (m : M S A) (k : A -> M S B) s e s' :
  m s = (Raise e, s') -> bind m k s = (Raise e, s').
Proof. intros H. unfold bind. now rewrite H. Qed.

(** * Equations of strings *)

Lemma length_slice_to n s :
  String.length (slice_to n s) = Nat.min n (String.length s).
Proof.
  revert s. induction n as [|n IH]; intros [|c s]; simpl; auto.
Qed.

Lemma str_app_cons c (a b : string) : String c a +:+ b = String c (a +:+ b).
Proof. reflexivity. Qed.

Lemma str_app_nil_r (a : string) : a +:+ EmptyString = a.
Proof.
  induction a as [|x a IH]; [reflexivity|]. rewrite str_app_cons. now f_equal.
Qed.

Lemma slice_to_prefix n s : exists rest, s = slice_to n s +:+ rest.
Proof.
  revert s. induction n as [|n IH]; intros s.
  - exists s. destruct s; reflexivity.
  - destruct s as [|c s]; [exists EmptyString; reflexivity|].
    destruct (IH s) as [rest Hrest]. exists rest.
    change (String c s = String c (slice_to n s +:+ rest)). f_equal. exact Hrest.
Qed.

Lemma str_app_assoc (a b c : string) : (a +:+ b) +:+ c = a +:+ b +:+ c.
Proof.
  induction a as [|x a IH]; [reflexivity|].
  rewrite !str_app_cons. now f_equal.
Qed.

Lemma str_length_app (a b : string) :
  String.length (a +:+ b) = String.length a + String.length b.
Proof.
  induction a as [|x a IH]; [reflexivity|].
  rewrite str_app_cons. cbn [String.length]. now rewrite IH.
Qed.

Lemma join_no_separator (x : string) (l : list string) :
  join EmptyString (x :: l) = x +:+ join EmptyString l.
Proof.
  unfold join. destruct l as [|y l]; [|reflexivity].
  cbn [String.concat]. now rewrite str_app_nil_r.
Qed.

Lemma join_snoc sep (parts : list string) (last : string) :
  parts <> [] -> join sep (parts ++ [last]) = join sep parts +:+ sep +:+ last.
Proof.
  unfold join. induction parts as [|p parts IH]; [congruence|]. intros _.
  destruct parts as [|p' parts].
  - reflexivity.
  - change (String.concat sep ((p :: p' :: parts) ++ [last]))
      with (p +:+ sep +:+ String.concat sep ((p' :: parts) ++ [last])).
    rewrite IH by discriminate.
    change (String.concat sep (p :: p' :: parts))
      with (p +:+ sep +:+ String.concat sep (p' :: parts)).
    now rewrite !str_app_assoc.
Qed.

(** * Properties of the search tool *)

Module McpServerProofs.
Import McpServer Stubs.

Section ServerProofs.

Context {tavily : Tavily}.

Lemma searched_app (l1 l2 : list event) :
  searched (l1 ++ l2) = searched l1 ++ searched l2.
Proof. unfold searched. apply omap_app. Qed.

(** One iteration always returns: the section is the one of the answer, the
    service moves on, exactly one search is made. *)
Lemma search_one_spec query s :
  exists s',
    search_one query s =
      (Return (section_of query (tavily_search query (service s)).1), s') /\
    service s' = (tavily_search query (service s)).2 /\
    searched (log s') = searched (log s) ++ [query].
Proof.
  unfold search_one, try_except, bind, logger_info, logger_error, emit, search, ret.
  simpl. destruct (tavily_search query (service s)) as [[resp|e] w] eqn:Hq; simpl.
  - eexists. split; [reflexivity|]. simpl. rewrite !searched_app. simpl.
    rewrite app_nil_r. auto.
  - eexists. split; [reflexivity|]. simpl. rewrite !searched_app. simpl.
    rewrite !app_nil_r. auto.
Qed.

Lemma execution_loop_spec qs : forall acc s,
  exists s',
    execution_loop qs acc s =
      (Return (acc ++ zip_with section_of qs (answers qs (service s))), s') /\
    searched (log s') = searched (log s) ++ qs.
Proof.
  induction qs as [|q qs IH]; intros acc s; simpl.
  - exists s. unfold ret. rewrite !app_nil_r. auto.
  - destruct (search_one_spec q s) as (s1 & Hone & Hw & Hlog).
    unfold bind at 1. rewrite Hone.
    destruct (IH (acc ++ [section_of q (tavily_search q (service s)).1]) s1)
      as (s2 & Hloop & Hlog2).
    exists s2. rewrite Hloop, Hw, Hlog2, Hlog.
    destruct (tavily_search q (service s)) as [r w]. simpl.
    rewrite <- !app_assoc. auto.
Qed.

Lemma length_answers qs : forall w, length (answers qs w) = length qs.
Proof.
  induction qs as [|q qs IH]; intros w; simpl; [reflexivity|].
  destruct (tavily_search q w). simpl. now rewrite IH.
Qed.

(** The run of the handler once the credential check has passed and the
    client has been constructed. *)
Lemma search_tourism_configured queries s w1 :
  truthy TAVILY_API_KEY = true ->
  TavilyClient (get_or TAVILY_API_KEY "") (service s) = (Return tt, w1) ->
  exists s',
    search_tourism queries s =
      (Return
         (join nl
            (zip_with section_of (take MAX_QUERIES_PER_BATCH queries)
               (answers (take MAX_QUERIES_PER_BATCH queries) w1) ++
             (if MAX_QUERIES_PER_BATCH <? length queries
              then [skipped_note queries] else []))), s') /\
    searched (log s') = searched (log s) ++ take MAX_QUERIES_PER_BATCH queries.
Proof.
  intros Hkey Hctor. unfold search_tourism. rewrite Hkey. cbn [negb].
  erewrite bind_Return by reflexivity.
  erewrite bind_Return
    by (unfold new_client; cbn [service log]; rewrite Hctor; reflexivity).
  match goal with
  | |- context [bind (execution_loop ?qs []) _ ?s0] =>
      destruct (execution_loop_spec qs [] s0) as (s2 & Hloop & Hlog)
  end.
  exists s2. erewrite bind_Return by exact Hloop. unfold ret.
  split.
  - destruct (MAX_QUERIES_PER_BATCH <? length queries); simpl;
      rewrite ?app_nil_r; reflexivity.
  - rewrite Hlog. cbn [log]. rewrite !searched_app. simpl. now rewrite !app_nil_r.
Qed.

Lemma fold_left_append {A} (f : A -> string) (l : list A) (init : string) :
  fold_left (fun acc x => acc +:+ f x) l init =
    init +:+ join EmptyString (f <$> l).
Proof.
  revert init. induction l as [|x l IH]; intros init.
  - cbn. now rewrite str_app_nil_r.
  - cbn [fold_left]. rewrite IH, fmap_cons, join_no_separator.
    now rewrite str_app_assoc.
Qed.

(** The text of the section of a query whose search returned, spelled out. *)
Lemma format_response_text query response :
  format_response query response =
    "### Results for: '" +:+ query +:+ "'" +:+ nl +:+
    (if truthy (answer response)
     then "**AI Summary**: " +:+ get_or (answer response) "" +:+ nl +:+ nl
     else EmptyString) +:+
    join EmptyString
      ((fun res =>
          "- **Title**: " +:+ get_or (title res) "N/A" +:+ nl +:+
          "  **Link**: " +:+ get_or (url res) "#" +:+ nl +:+
          "  **Content**: " +:+
          (if 300 <? String.length (get_or (content res) "")
           then slice_to 300 (get_or (content res) "") +:+ "..."
           else get_or (content res) "") +:+ nl +:+ nl)
       <$> default [] (results response)).
Proof.
  unfold format_response. cbv zeta. rewrite fold_left_append.
  change (fun res => format_hit res) with
    (fun res =>
       "- **Title**: " +:+ get_or (title res) "N/A" +:+ nl +:+
       "  **Link**: " +:+ get_or (url res) "#" +:+ nl +:+
       "  **Content**: " +:+
       (if 300 <? String.length (get_or (content res) "")
        then slice_to 300 (get_or (content res) "") +:+ "..."
        else get_or (content res) "") +:+ nl +:+ nl).
  destruct (truthy (answer response)).
  - now rewrite !str_app_assoc.
  - now rewrite !str_app_assoc.
Qed.

(** The run of the handler when the credential check fails. *)
Lemma search_tourism_unconfigured queries s :
  truthy TAVILY_API_KEY = false ->
  search_tourism queries s =
    (Return "Error: Server misconfigured (Missing API Key).",
     mkState (service s)
       (log s ++ [LogError "TAVILY_API_KEY is missing. Aborting search."])).
Proof.
  intros Hkey. unfold search_tourism. rewrite Hkey. cbn [negb].
  erewrite bind_Return by reflexivity. reflexivity.
Qed.

(** C6.  A result content longer than [MAX_CHARS_PER_RESULT] = 300 is
    rendered as exactly its first 300 characters followed by the marker
    "..."; a content of at most 300 characters is rendered unchanged.  The
    rendered content is what the entry of the hit shows after "**Content**: ". *)
Theorem content_truncated_to_limit (t u : option string) (content : string) :
  format_hit (mkHit t u (Some content)) =
    "- **Title**: " +:+ get_or t "N/A" +:+ nl +:+
    "  **Link**: " +:+ get_or u "#" +:+ nl +:+
    "  **Content**: " +:+ clean_content content +:+ nl +:+ nl /\
  (300 < String.length content ->
     clean_content content = slice_to 300 content +:+ "..." /\
     String.length (slice_to 300 content) = 300 /\
     exists rest, content = slice_to 300 content +:+ rest) /\
  (String.length content <= 300 -> clean_content content = content).
Proof.
  split; [reflexivity|]. unfold clean_content, MAX_CHARS_PER_RESULT. split.
  - intros Hlong. apply Nat.ltb_lt in Hlong as Hb. rewrite Hb.
    split; [reflexivity|]. split.
    + rewrite length_slice_to. lia.
    + apply slice_to_prefix.
  - intros Hshort. destruct (300 <? String.length content) eqn:Hb; [|reflexivity].
    apply Nat.ltb_lt in Hb. lia.
Qed.

(** C8.  When the credential is absent ([TAVILY_API_KEY] unset or empty) the
    handler returns the error text as its value: it does not raise, it
    constructs no client and makes no search; the only effect is one error
    record in the log. *)
Theorem missing_credential_is_error_text (queries : list string) (s : State) :
  truthy TAVILY_API_KEY = false ->
  search_tourism queries s =
    (Return "Error: Server misconfigured (Missing API Key).",
     mkState (service s)
       (log s ++ [LogError "TAVILY_API_KEY is missing. Aborting search."])) /\
  searched (log (search_tourism queries s).2) = searched (log s).
Proof.
  intros Hkey. rewrite (search_tourism_unconfigured queries s Hkey).
  split; [reflexivity|].
  cbn [snd log]. rewrite searched_app. simpl. now rewrite app_nil_r.
Qed.

(** C4, as the code has it.  When the credential is present and the client
    is constructed, a list of more than [MAX_QUERIES_PER_BATCH] = 3 queries
    has exactly its first three searched, in input order and nothing else,
    and the output is the three sections joined by newlines, then a newline
    and the note with the count [length queries - 3]. *)
Theorem batch_capped_with_skipped_note (queries : list string) (s : State) (w1 : W) :
  truthy TAVILY_API_KEY = true ->
  TavilyClient (get_or TAVILY_API_KEY "") (service s) = (Return tt, w1) ->
  MAX_QUERIES_PER_BATCH < length queries ->
  exists q1 q2 q3 rest sections s',
    queries = q1 :: q2 :: q3 :: rest /\
    searched (log s') = searched (log s) ++ [q1; q2; q3] /\
    sections = zip_with section_of [q1; q2; q3] (answers [q1; q2; q3] w1) /\
    length sections = 3 /\
    search_tourism queries s =
      (Return (join nl sections +:+ nl +:+ skipped_note queries), s') /\
    skipped_note queries =
      nl +:+ "*Note: " +:+ str_of_nat (length queries - 3) +:+
      " queries were skipped to conserve resources.*".
Proof.
  intros Hkey Hctor Hlen. unfold MAX_QUERIES_PER_BATCH in Hlen.
  destruct queries as [|q1 [|q2 [|q3 rest]]]; simpl in Hlen; try lia.
  destruct (search_tourism_configured (q1 :: q2 :: q3 :: rest) s w1 Hkey Hctor)
    as (s' & Hrun & Hlog).
  exists q1, q2, q3, rest. eexists. exists s'.
  split; [reflexivity|]. split; [exact Hlog|]. split; [reflexivity|].
  assert (Hthree : length (zip_with section_of [q1; q2; q3] (answers [q1; q2; q3] w1)) = 3).
  { rewrite length_zip_with, length_answers. reflexivity. }
  split; [exact Hthree|]. split; [|reflexivity].
  rewrite Hrun.
  replace (MAX_QUERIES_PER_BATCH <? length (q1 :: q2 :: q3 :: rest)) with true
    by (symmetry; apply Nat.ltb_lt; unfold MAX_QUERIES_PER_BATCH; simpl; lia).
  change (take MAX_QUERIES_PER_BATCH (q1 :: q2 :: q3 :: rest)) with [q1; q2; q3].
  rewrite join_snoc; [reflexivity|].
  intros Hnil. rewrite Hnil in Hthree. discriminate.
Qed.

(** C7.  In a run that reaches the search service, the output holds one
    section per query of the batch (the first [MAX_QUERIES_PER_BATCH] of the
    input, all of it when it has at most three), in input order, joined by
    newlines and followed by the note when queries were skipped.  The
    section of a query whose search raised is the error line naming that
    query.  The section of a query whose search returned is made of its own
    query and its own response alone: the header naming the query, the
    summary line when the answer is present and not empty, then one entry
    per result with its title, its link and its content cut at 300
    characters.  A failure removes no section and does not end the call. *)
Theorem failing_query_is_inline_error (queries : list string) (s : State) :
  searched (log (search_tourism queries s).2) <> searched (log s) ->
  let batch := take MAX_QUERIES_PER_BATCH queries in
  let outs := answers batch (TavilyClient (get_or TAVILY_API_KEY "") (service s)).2 in
  (length queries <= MAX_QUERIES_PER_BATCH -> batch = queries) /\
  exists sections,
    (search_tourism queries s).1 =
      Return (join nl (sections ++
                       if 3 <? length queries
                       then [nl +:+ "*Note: " +:+ str_of_nat (length queries - 3) +:+
                             " queries were skipped to conserve resources.*"]
                       else [])) /\
    length sections = length batch /\
    forall i query, batch !! i = Some query ->
      exists o, outs !! i = Some o /\
        match o with
        | Raise e =>
            sections !! i =
              Some ("Error searching '" +:+ query +:+ "': " +:+ exc_str e)
        | Return response =>
            sections !! i =
              Some ("### Results for: '" +:+ query +:+ "'" +:+ nl +:+
                    (if truthy (answer response)
                     then "**AI Summary**: " +:+ get_or (answer response) "" +:+
                          nl +:+ nl
                     else EmptyString) +:+
                    join EmptyString
                      ((fun res =>
                          "- **Title**: " +:+ get_or (title res) "N/A" +:+ nl +:+
                          "  **Link**: " +:+ get_or (url res) "#" +:+ nl +:+
                          "  **Content**: " +:+
                          (if 300 <? String.length (get_or (content res) "")
                           then slice_to 300 (get_or (content res) "") +:+ "..."
                           else get_or (content res) "") +:+ nl +:+ nl)
                       <$> default [] (results response)))
        end.
Proof.
  intros Hcalled batch outs. split; [intros Hle; now apply take_ge|].
  destruct (truthy TAVILY_API_KEY) eqn:Hkey.
  2:{ exfalso. apply Hcalled.
      rewrite (search_tourism_unconfigured queries s Hkey).
      cbn [snd log]. rewrite searched_app. simpl. now rewrite app_nil_r. }
  destruct (TavilyClient (get_or TAVILY_API_KEY "") (service s)) as [[[]|e] w1] eqn:Hctor.
  2:{ exfalso. apply Hcalled. unfold search_tourism. rewrite Hkey. cbn [negb].
      erewrite bind_Return by reflexivity.
      erewrite bind_Raise
        by (unfold new_client; cbn [service log]; rewrite Hctor; reflexivity).
      cbn [snd log]. rewrite !searched_app. simpl. now rewrite !app_nil_r. }
  destruct (search_tourism_configured queries s w1 Hkey Hctor) as (s' & Hrun & _).
  exists (zip_with section_of batch outs). subst batch outs. cbn [snd].
  rewrite Hrun. split; [reflexivity|]. split.
  { rewrite length_zip_with, length_answers. lia. }
  intros i query Hi.
  destruct (lookup_lt_is_Some_2 (answers (take MAX_QUERIES_PER_BATCH queries) w1) i)
    as [o Ho].
  { rewrite length_answers. eapply lookup_lt_Some, Hi. }
  exists o. split; [exact Ho|].
  assert (Hz : zip_with section_of (take MAX_QUERIES_PER_BATCH queries)
                 (answers (take MAX_QUERIES_PER_BATCH queries) w1) !! i =
               Some (section_of query o)).
  { rewrite lookup_zip_with, Hi, Ho. reflexivity. }
  destruct o as [response|e]; [|exact Hz].
  rewrite Hz. cbn [section_of]. now rewrite format_response_text.
Qed.

(** C10.  The loop never lets an exception out: an iteration whose search
    raises returns the error line, and the loop returns for every list of
    queries; so once the credential is present and the client is
    constructed the handler returns a string for every input, and for the
    empty list it returns the empty string. *)
Theorem loop_contains_every_exception :
  (forall query s e w, tavily_search query (service s) = (Raise e, w) ->
     exists s', search_one query s = (Return (error_line query e), s')) /\
  (forall qs acc s, exists sections s',
     execution_loop qs acc s = (Return sections, s')) /\
  (forall queries s w1,
     truthy TAVILY_API_KEY = true ->
     TavilyClient (get_or TAVILY_API_KEY "") (service s) = (Return tt, w1) ->
     (exists out s', search_tourism queries s = (Return out, s')) /\
     (exists s', search_tourism [] s = (Return EmptyString, s'))).
Proof.
  split; [|split].
  - intros query s e w Hq. destruct (search_one_spec query s) as (s' & Hone & _).
    exists s'. rewrite Hone, Hq. reflexivity.
  - intros qs acc s. destruct (execution_loop_spec qs acc s) as (s' & Hloop & _).
    eauto.
  - intros queries s w1 Hkey Hctor. split.
    + destruct (search_tourism_configured queries s w1 Hkey Hctor) as (s' & Hrun & _).
      eauto.
    + destruct (search_tourism_configured [] s w1 Hkey Hctor) as (s' & Hrun & _).
      exists s'. rewrite Hrun. reflexivity.
Qed.

(** ** Further properties of the search tool *)

(** The run of the handler when the client cannot be constructed. *)
Lemma search_tourism_client_fails queries s e w1 :
  truthy TAVILY_API_KEY = true ->
  TavilyClient (get_or TAVILY_API_KEY "") (service s) = (Raise e, w1) ->
  search_tourism queries s =
    (Raise e,
     mkState w1
       (log s ++
        [LogInfo ("Processing " +:+
                  str_of_nat (length (take MAX_QUERIES_PER_BATCH queries)) +:+
                  " queries (Requested: " +:+ str_of_nat (length queries) +:+ ")");
         NewTavilyClient (get_or TAVILY_API_KEY "")])).
Proof.
  intros Hkey Hctor. unfold search_tourism. rewrite Hkey. cbn [negb].
  erewrite bind_Return by reflexivity.
  erewrite bind_Raise
    by (unfold new_client; cbn [service log]; rewrite Hctor; reflexivity).
  now rewrite <- app_assoc.
Qed.

Lemma search_one_log query s :
  exists evs,
    log (search_one query s).2 = log s ++ evs /\ Forall basic_request evs.
Proof.
  unfold search_one, try_except, bind, logger_info, logger_error, emit, search, ret.
  cbn [service log].
  destruct (tavily_search query (service s)) as [[resp|e] w]; cbn [snd log];
    rewrite <- ?app_assoc; eexists; (split; [reflexivity|]);
    repeat constructor.
Qed.

Lemma execution_loop_log qs : forall acc s,
  exists evs,
    log (execution_loop qs acc s).2 = log s ++ evs /\ Forall basic_request evs.
Proof.
  induction qs as [|q qs IH]; intros acc s; cbn [execution_loop].
  - exists []. split; [now rewrite app_nil_r|constructor].
  - destruct (search_one_log q s) as (evs1 & Hlog1 & Hok1).
    destruct (search_one_spec q s) as (s1 & Hone & _).
    rewrite Hone in Hlog1. cbn [snd] in Hlog1.
    erewrite bind_Return by exact Hone.
    destruct (IH (acc ++ [section_of q (tavily_search q (service s)).1]) s1)
      as (evs2 & Hlog2 & Hok2).
    exists (evs1 ++ evs2). rewrite Hlog2, Hlog1, app_assoc.
    split; [reflexivity|]. now apply Forall_app.
Qed.

(** X1.  The rendered content of a hit never has more than
    [MAX_CHARS_PER_RESULT + 3] characters, and it is longer than the content
    itself by two characters at most (a content of 301 characters is
    rendered on 303). *)
Theorem rendered_content_is_bounded (content : string) :
  String.length (clean_content content) <= MAX_CHARS_PER_RESULT + 3 /\
  String.length (clean_content content) <= String.length content + 2.
Proof.
  unfold clean_content, MAX_CHARS_PER_RESULT.
  destruct (300 <? String.length content) eqn:Hlong.
  - apply Nat.ltb_lt in Hlong.
    rewrite str_length_app, length_slice_to. cbn [String.length]. lia.
  - apply Nat.ltb_ge in Hlong. lia.
Qed.

(** X2.  Whatever the environment and the input, the queries a call hands
    to the search service are a prefix of the input of at most
    [MAX_QUERIES_PER_BATCH] queries, searched in input order. *)
Theorem searches_are_a_bounded_prefix (queries : list string) (s : State) :
  exists n,
    n <= MAX_QUERIES_PER_BATCH /\
    searched (log (search_tourism queries s).2) = searched (log s) ++ take n queries.
Proof.
  destruct (truthy TAVILY_API_KEY) eqn:Hkey.
  2:{ exists 0. split; [lia|]. rewrite (search_tourism_unconfigured queries s Hkey).
      cbn [snd log]. rewrite searched_app. cbn. now rewrite !app_nil_r. }
  destruct (TavilyClient (get_or TAVILY_API_KEY "") (service s)) as [[[]|e] w1] eqn:Hctor.
  - destruct (search_tourism_configured queries s w1 Hkey Hctor) as (s' & Hrun & Hlog).
    exists MAX_QUERIES_PER_BATCH. split; [lia|]. rewrite Hrun. exact Hlog.
  - exists 0. split; [lia|].
    rewrite (search_tourism_client_fails queries s e w1 Hkey Hctor).
    cbn [snd log]. rewrite searched_app. cbn. now rewrite !app_nil_r.
Qed.

(** X3.  The client is constructed outside the [try]: when its constructor
    raises, the handler raises the same exception, and no query has been
    searched. *)
Theorem client_failure_leaves_the_handler (queries : list string) (s : State)
    (e : exn) (w1 : W) :
  truthy TAVILY_API_KEY = true ->
  TavilyClient (get_or TAVILY_API_KEY "") (service s) = (Raise e, w1) ->
  (search_tourism queries s).1 = Raise e /\
  service (search_tourism queries s).2 = w1 /\
  searched (log (search_tourism queries s).2) = searched (log s).
Proof.
  intros Hkey Hctor. rewrite (search_tourism_client_fails queries s e w1 Hkey Hctor).
  cbn [fst snd service log]. split; [reflexivity|]. split; [reflexivity|].
  rewrite searched_app. cbn. now rewrite app_nil_r.
Qed.

(** X4.  With the credential present and the client constructed, a list of
    at most [MAX_QUERIES_PER_BATCH] queries has every query searched, in
    input order, and the output is exactly the sections joined by newlines:
    one section per query and no note. *)
Theorem small_batch_has_no_note (queries : list string) (s : State) (w1 : W) :
  truthy TAVILY_API_KEY = true ->
  TavilyClient (get_or TAVILY_API_KEY "") (service s) = (Return tt, w1) ->
  length queries <= MAX_QUERIES_PER_BATCH ->
  let sections := zip_with section_of queries (answers queries w1) in
  length sections = length queries /\
  (search_tourism queries s).1 = Return (join nl sections) /\
  searched (log (search_tourism queries s).2) = searched (log s) ++ queries.
Proof.
  intros Hkey Hctor Hlen sections. subst sections.
  destruct (search_tourism_configured queries s w1 Hkey Hctor) as (s' & Hrun & Hlog).
  rewrite Hrun. cbn [fst snd]. rewrite Hlog, take_ge by exact Hlen.
  replace (MAX_QUERIES_PER_BATCH <? length queries) with false
    by (symmetry; apply Nat.ltb_ge; exact Hlen).
  rewrite app_nil_r, length_zip_with, length_answers. split; [lia|]. auto.
Qed.

(** X5.  The section of a query whose search returned is its header naming
    the query, then the summary line when the answer is present and not
    empty, then the entries of the results in order; without answer and
    without results it is the header alone. *)
Theorem section_layout (query : string) (response : SearchResponse) :
  format_response query response =
    section_head query response +:+
    join EmptyString (format_hit <$> default [] (results response)) /\
  (truthy (answer response) = false -> default [] (results response) = [] ->
   format_response query response = "### Results for: '" +:+ query +:+ "'" +:+ nl).
Proof.
  assert (Hlayout : format_response query response =
            section_head query response +:+
            join EmptyString (format_hit <$> default [] (results response))).
  { unfold format_response, section_head. cbv zeta. rewrite fold_left_append.
    destruct (truthy (answer response)).
    - now rewrite !str_app_assoc.
    - now rewrite str_app_nil_r. }
  split; [exact Hlayout|]. intros Hans Hres. rewrite Hlayout, Hres.
  unfold section_head. rewrite Hans. cbn [fmap list_fmap join String.concat].
  now rewrite !str_app_nil_r.
Qed.

(** X6.  A call only adds to the log of the server, and every search request
    it sends asks for the basic depth, two results at most and the
    generated answer. *)
Theorem log_grows_by_basic_requests (queries : list string) (s : State) :
  exists evs,
    log (search_tourism queries s).2 = log s ++ evs /\ Forall basic_request evs.
Proof.
  destruct (truthy TAVILY_API_KEY) eqn:Hkey.
  2:{ rewrite (search_tourism_unconfigured queries s Hkey). cbn [snd log].
      eexists. split; [reflexivity|]. repeat constructor. }
  destruct (TavilyClient (get_or TAVILY_API_KEY "") (service s)) as [[[]|e] w1] eqn:Hctor.
  2:{ rewrite (search_tourism_client_fails queries s e w1 Hkey Hctor). cbn [snd log].
      eexists. split; [reflexivity|]. repeat constructor. }
  unfold search_tourism. rewrite Hkey. cbn [negb].
  erewrite bind_Return by reflexivity.
  erewrite bind_Return
    by (unfold new_client; cbn [service log]; rewrite Hctor; reflexivity).
  match goal with
  | |- context [bind (execution_loop ?qs []) _ ?s0] =>
      destruct (execution_loop_log qs [] s0) as (evs & Hlog & Hok);
      destruct (execution_loop_spec qs [] s0) as (s2 & Hloop & _)
  end.
  rewrite Hloop in Hlog. cbn [snd log] in Hlog.
  erewrite bind_Return by exact Hloop. unfold ret. cbn [snd].
  rewrite Hlog, <- !app_assoc. eexists. split; [reflexivity|].
  cbn [app]. repeat constructor. exact Hok.
Qed.

End ServerProofs.

(** ** Concrete runs *)

Lemma content_truncated_to_limit_witness :
  clean_content (str_mul "a" 301) = str_mul "a" 300 +:+ "..." /\
  clean_content "Lapa" = "Lapa".
Proof.
  split.
  - apply (content_truncated_to_limit None None (str_mul "a" 301)).
    apply Nat.ltb_lt. vm_compute. reflexivity.
  - apply (content_truncated_to_limit None None "Lapa").
    apply Nat.leb_le. vm_compute. reflexivity.
Defined.

Lemma missing_credential_is_error_text_witness :
  (@search_tourism (stub_tavily None) five_queries stub_start).1 =
    Return "Error: Server misconfigured (Missing API Key).".
Proof.
  rewrite (proj1 (@missing_credential_is_error_text (stub_tavily None)
                    five_queries stub_start eq_refl)).
  reflexivity.
Defined.

(** C4 as stated fails: with the credential absent a list of five queries
    has none of its queries searched and the output carries no note. *)
Lemma batch_cap_needs_credential :
  let run := @search_tourism (stub_tavily None) five_queries stub_start in
  run.1 = Return "Error: Server misconfigured (Missing API Key)." /\
  searched (log run.2) = [] /\
  searched (log run.2) <> take 3 five_queries.
Proof. vm_compute. repeat split. discriminate. Qed.

Lemma batch_capped_with_skipped_note_witness :
  exists body s',
    @search_tourism (stub_tavily (Some "tvly-key")) five_queries stub_start =
      (Return (body +:+ nl +:+ "*Note: 2 queries were skipped to conserve resources.*"), s') /\
    searched (log s') = ["rio"; "down"; "lapa"].
Proof.
  destruct (@batch_capped_with_skipped_note (stub_tavily (Some "tvly-key"))
              five_queries stub_start 0 eq_refl eq_refl)
    as (q1 & q2 & q3 & rest & sections & s' & Hq & Hlog & _ & _ & Hrun & Hnote).
  { unfold MAX_QUERIES_PER_BATCH. simpl. lia. }
  injection Hq as <- <- <- <-.
  exists (join nl sections +:+ nl), s'. split; [|exact Hlog].
  rewrite Hrun, Hnote, str_app_assoc. reflexivity.
Defined.

Lemma failing_query_is_inline_error_witness :
  exists sections,
    (@search_tourism (stub_tavily (Some "tvly-key")) five_queries stub_start).1 =
      Return (join nl (sections ++
                       [nl +:+ "*Note: 2 queries were skipped to conserve resources.*"])) /\
    length sections = 3 /\
    sections !! 0 =
      Some ("### Results for: 'rio'" +:+ nl +:+
            "**AI Summary**: Rio in short" +:+ nl +:+ nl +:+
            "- **Title**: Guide" +:+ nl +:+
            "  **Link**: https://example.org" +:+ nl +:+
            "  **Content**: " +:+ str_mul "a" 300 +:+ "..." +:+ nl +:+ nl) /\
    sections !! 1 = Some "Error searching 'down': timed out".
Proof.
  destruct (@failing_query_is_inline_error (stub_tavily (Some "tvly-key"))
              five_queries stub_start)
    as (_ & sections & Hrun & Hlen & Hsec).
  { vm_compute. discriminate. }
  exists sections. split; [exact Hrun|]. split; [exact Hlen|]. split.
  - destruct (Hsec 0 "rio" eq_refl) as (o & Ho & Hmatch).
    injection Ho as <-. rewrite Hmatch. vm_compute. reflexivity.
  - destruct (Hsec 1 "down" eq_refl) as (o & Ho & Hmatch).
    injection Ho as <-. exact Hmatch.
Defined.

(** A run on one failing query: the call returns the error line, and the
    log shows the client, the search and the two records. *)
Example failing_query_run :
  @search_tourism (stub_tavily (Some "tvly-key")) ["down"] stub_start =
    (Return "Error searching 'down': timed out",
     @mkState (stub_tavily (Some "tvly-key")) 1
       [LogInfo "Processing 1 queries (Requested: 1)";
        NewTavilyClient "tvly-key";
        LogInfo "Searching Tavily: 'down'";
        TavilySearch "down" "basic" 2 true;
        LogError "Search failed for 'down': timed out"]).
Proof. vm_compute. reflexivity. Qed.

Lemma loop_contains_every_exception_witness :
  exists s', @search_tourism (stub_tavily (Some "tvly-key")) [] stub_start =
               (Return EmptyString, s').
Proof.
  destruct (@loop_contains_every_exception (stub_tavily (Some "tvly-key")))
    as (_ & _ & Hrun).
  destruct (Hrun [] stub_start 0 eq_refl eq_refl) as [_ Hempty]. exact Hempty.
Defined.

Lemma client_failure_leaves_the_handler_witness :
  (@search_tourism stub_tavily_rejecting five_queries
     (@mkState stub_tavily_rejecting 0 [])).1 =
    Raise (Exn "InvalidAPIKeyError" "Unauthorized: invalid API key." None).
Proof.
  apply (@client_failure_leaves_the_handler stub_tavily_rejecting five_queries
           (@mkState stub_tavily_rejecting 0 []) _ 0 eq_refl eq_refl).
Defined.

Lemma small_batch_has_no_note_witness :
  (@search_tourism (stub_tavily (Some "tvly-key")) ["down"; "down"] stub_start).1 =
    Return ("Error searching 'down': timed out" +:+ nl +:+
            "Error searching 'down': timed out").
Proof.
  apply (@small_batch_has_no_note (stub_tavily (Some "tvly-key")) ["down"; "down"]
           stub_start 0 eq_refl eq_refl).
  unfold MAX_QUERIES_PER_BATCH. cbn. lia.
Defined.

Lemma section_layout_witness :
  @format_response "ipanema" (mkResponse (Some "") None) =
    "### Results for: 'ipanema'" +:+ nl.
Proof.
  apply (@section_layout "ipanema" (mkResponse (Some "") None)); reflexivity.
Defined.

End McpServerProofs.

(** * Properties of the agent *)

Module AgentProofs.
Import Agent.

Ltac run_monad :=
  cbv beta iota delta [bind ret raise try_except async_with emit call
    logger_info logger_error logger_debug logger_warning print getitem
    put get_tuple];
  cbn [fst snd memory trace].

Section AgentProofs.

Context {world : Collaborators}.

(** ** Rules for [hoare] *)

Lemma hoare_bind {A B} (P Q R : State -> Prop) (m : M State A) (k : A -> M State B) :
  hoare P m Q -> (forall a, hoare Q (k a) R) -> (forall s, Q s -> R s) ->
  hoare P (bind m k) R.
Proof.
  intros Hm Hk Hsub s HP. unfold bind. specialize (Hm s HP).
  destruct (m s) as [[a|e] s1]; cbn [snd] in *; [apply Hk, Hm | apply Hsub, Hm].
Qed.

Lemma hoare_keep {A B} (P : State -> Prop) (m : M State A) (k : A -> M State B) :
  hoare P m P -> (forall a, hoare P (k a) P) -> hoare P (bind m k) P.
Proof. intros Hm Hk. eapply hoare_bind; eauto. Qed.

Lemma hoare_ret {A} (P : State -> Prop) (a : A) : hoare P (ret a) P.
Proof. intros s HP. exact HP. Qed.

Lemma hoare_raise {A} (P : State -> Prop) e : hoare P (raise (A:=A) e) P.
Proof. intros s HP. exact HP. Qed.

Lemma hoare_getitem {A} (P : State -> Prop) key (x : option A) :
  hoare P (getitem key x) P.
Proof. destruct x; intros s HP; exact HP. Qed.

Lemma hoare_try_except {A} (P : State -> Prop) (m : M State A) h :
  hoare P m P -> (forall e, hoare P (h e) P) -> hoare P (try_except m h) P.
Proof.
  intros Hm Hh s HP. unfold try_except. specialize (Hm s HP).
  destruct (m s) as [[a|e] s1]; cbn [snd] in *; [exact Hm | apply Hh, Hm].
Qed.

Lemma hoare_async_with {A B} (P : State -> Prop) (enter : M State A) exit_
    pass_on (body : A -> M State B) :
  hoare P enter P -> hoare P exit_ P -> (forall a, hoare P (body a) P) ->
  hoare P (async_with enter exit_ pass_on body) P.
Proof.
  intros He Hx Hb s HP. unfold async_with. specialize (He s HP).
  destruct (enter s) as [[a|e] s1]; cbn [snd] in *; [|exact He].
  specialize (Hb a s1 He). destruct (body a s1) as [[b|e] s2]; cbn [snd] in *;
    apply Hx, Hb.
Qed.

Lemma transport_calls_snoc evs ev :
  is_transport ev = false -> transport_calls (evs ++ [ev]) = transport_calls evs.
Proof.
  intros Hev. unfold transport_calls. rewrite filter_app.
  rewrite (filter_cons_False _ ev) by (rewrite Hev; discriminate).
  rewrite filter_nil. apply app_nil_r.
Qed.

Lemma emit_memory P ev : of_memory P -> hoare P (emit ev) P.
Proof. intros HP s Hs. eapply HP; [|exact Hs]. reflexivity. Qed.

Lemma call_memory {A} P ev (o : Res A) : of_memory P -> hoare P (call ev o) P.
Proof. intros HP s Hs. eapply HP; [|exact Hs]. reflexivity. Qed.

Lemma emit_transport P ev :
  of_transport P -> is_transport ev = false -> hoare P (emit ev) P.
Proof.
  intros HP Hev s Hs. eapply HP; [|exact Hs]. cbn. now rewrite transport_calls_snoc.
Qed.

Lemma call_transport {A} P ev (o : Res A) :
  of_transport P -> is_transport ev = false -> hoare P (call ev o) P.
Proof.
  intros HP Hev s Hs. eapply HP; [|exact Hs]. cbn. now rewrite transport_calls_snoc.
Qed.

Lemma put_transport P tid cp : of_transport P -> hoare P (put tid cp) P.
Proof. intros HP s Hs. eapply HP; [|exact Hs]. reflexivity. Qed.

Lemma get_tuple_keeps P tid : hoare P (get_tuple tid) P.
Proof. intros s Hs. exact Hs. Qed.

(** ** The nodes *)

Lemma node_fn_memory P n st : of_memory P -> hoare P (node_fn n st) P.
Proof.
  intros HP.
  destruct n; cbn [node_fn];
    unfold planner_node, executor_node, writer_node; cbv zeta;
    repeat first
      [ apply hoare_try_except; [|intros ?]
      | apply hoare_async_with; [| |intros ?]
      | apply emit_memory | apply call_memory | apply hoare_getitem
      | apply hoare_ret | apply hoare_raise | assumption
      | apply hoare_keep; [|intros ?] ].
Qed.

Lemma planner_node_transport P st : of_transport P -> hoare P (planner_node st) P.
Proof.
  intros HP. unfold planner_node. cbv zeta.
  repeat first
    [ apply hoare_keep; [|intros ?] | apply emit_transport; [assumption|reflexivity]
    | apply call_transport; [assumption|reflexivity]
    | apply hoare_getitem | apply hoare_ret ].
Qed.

Lemma pregel_loop_unfold steps ib tid resuming cp :
  pregel_loop steps ib tid resuming cp =
    match next cp with
    | END => ret (values cp)
    | START writes =>
        match steps with
        | O => raise (Exn "GraphRecursionError" "Recursion limit reached" None)
        | S steps' =>
            let cp' :=
              mkCheckpoint (apply_writes (values cp) writes) (Node entry_point) in
            put tid cp' ;;
            pregel_loop steps' ib tid false cp'
        end
    | Node n =>
        if negb resuming && bool_decide (n ∈ ib) then ret (values cp)
        else
          match steps with
          | O => raise (Exn "GraphRecursionError" "Recursion limit reached" None)
          | S steps' =>
              cp' <- superstep tid cp n ;;
              pregel_loop steps' ib tid false cp'
          end
    end.
Proof. destruct steps; reflexivity. Qed.

Lemma hoare_assoc {A B C} P Q (m : M State A) (k1 : A -> M State B)
    (k2 : B -> M State C) :
  hoare P (bind m (fun a => bind (k1 a) k2)) Q -> hoare P (bind (bind m k1) k2) Q.
Proof.
  intros H s HP. specialize (H s HP). unfold bind in *.
  destruct (m s) as [[a|e] s1]; exact H.
Qed.

Lemma hoare_ret_bind {A B} P Q (a : A) (k : A -> M State B) :
  hoare P (k a) Q -> hoare P (bind (ret a) k) Q.
Proof. intros H s HP. exact (H s HP). Qed.

(** ** C1: nothing reaches the tool process before approval *)

Lemma start_transport P tid user_input :
  of_transport P ->
  hoare P (run interrupt_before (Some (initial_input user_input)) tid) P.
Proof.
  intros HP. unfold run.
  apply hoare_keep; [apply get_tuple_keeps|intros saved]. cbv zeta.
  apply hoare_keep; [now apply put_transport|intros _].
  rewrite pregel_loop_unfold. cbn [next]. unfold recursion_limit. cbv zeta.
  apply hoare_keep; [now apply put_transport|intros _].
  rewrite pregel_loop_unfold. cbn [next].
  change (negb false && bool_decide (entry_point ∈ interrupt_before)) with false.
  cbv iota. unfold superstep.
  apply hoare_assoc.
  apply hoare_keep; [now apply planner_node_transport|intros update].
  cbv zeta. apply hoare_assoc.
  apply hoare_keep; [now apply put_transport|intros _].
  apply hoare_ret_bind. rewrite pregel_loop_unfold. cbn [next edge].
  apply hoare_ret.
Qed.

(** C1.  For every request, the start of the pipeline (the run up to the
    interrupt before the executor) makes no transport call, whatever the
    decision will be, and when the answer to the approval prompt is not an
    approval ([approval.lower() != 'y']) the whole of [main] makes none: no
    process is spawned and no session request is sent. *)
Theorem rejection_makes_no_transport_call (thread_id user_input approval : string)
    (s : State) :
  lower approval <> "y" ->
  transport_calls
    (trace (astream (Some (initial_input user_input)) thread_id s).2) =
    transport_calls (trace s) /\
  transport_calls (trace (main thread_id user_input approval s).2) =
    transport_calls (trace s).
Proof.
  intros Hno.
  set (P := fun s' : State => transport_calls (trace s') = transport_calls (trace s)).
  assert (HP : of_transport P).
  { intros s1 s2 Heq H1. unfold P in *. congruence. }
  assert (Hstart : hoare P (astream (Some (initial_input user_input)) thread_id) P).
  { unfold astream. apply hoare_keep; [now apply start_transport|intros _].
    apply hoare_ret. }
  split; [apply Hstart; reflexivity|].
  apply String.eqb_neq in Hno.
  assert (Hmain : hoare P (main thread_id user_input approval) P).
  { unfold main. rewrite Hno. fold (initial_input user_input).
    unfold aget_state, print, logger_info, logger_warning.
    repeat first
      [ apply emit_transport; [assumption|reflexivity]
      | apply hoare_getitem | apply hoare_ret | apply get_tuple_keeps
      | exact Hstart
      | apply hoare_keep; [|intros ?] ]. }
  apply Hmain. reflexivity.
Qed.

(** ** C2: the fields of the state along a session *)

Lemma preserved_refl st : preserved st st.
Proof. repeat split; auto. Qed.

Lemma preserved_trans a b c : preserved a b -> preserved b c -> preserved a c.
Proof. intros (?&?&?&?) (?&?&?&?). repeat split; auto. Qed.

Lemma staged_pipeline_order user_input cp :
  staged user_input cp -> pipeline_order (values cp).
Proof.
  unfold staged, pipeline_order. destruct (next cp) as [writes|[]|].
  - intros [-> _]. split; intros [? H]; discriminate H.
  - intros (_ & H1 & H2 & H3). rewrite H1, H2, H3.
    split; intros [? ?]; discriminate.
  - intros (_ & H1 & H2 & H3). rewrite H2, H3.
    split; intros [? ?]; [discriminate|discriminate].
  - intros (_ & H1 & H2 & H3). rewrite H3.
    split; intros [? ?]; [assumption|discriminate].
  - intros (_ & H1 & H2 & H3). split; intros _; assumption.
Qed.

Lemma staged_request user_input cp :
  staged user_input cp ->
  values cp = empty_state \/ user_request (values cp) = Some user_input.
Proof.
  unfold staged. destruct (next cp) as [writes|[]|]; intros H;
    [left|right|right|right|right]; apply H.
Qed.

Lemma chain_head_preserved user_input cp older :
  chain user_input (cp :: older) ->
  forall prev, prev ∈ older -> preserved (values prev) (values cp).
Proof.
  revert cp. induction older as [|p older IH]; intros cp Hc prev Hin.
  - inversion Hin.
  - destruct Hc as (_ & Hstep & Hrest).
    apply elem_of_cons in Hin as [->|Hin]; [exact Hstep|].
    eapply preserved_trans; [|exact Hstep]. now apply IH.
Qed.

Lemma chain_pairwise user_input h :
  chain user_input h ->
  forall i j newer older, i <= j -> h !! i = Some newer -> h !! j = Some older ->
    preserved (values older) (values newer).
Proof.
  induction h as [|cp h IH]; intros Hc i j newer older Hij Hi Hj; [discriminate|].
  destruct i as [|i].
  - injection Hi as <-. destruct j as [|j].
    + injection Hj as <-. apply preserved_refl.
    + eapply chain_head_preserved; [exact Hc|]. eapply list_elem_of_lookup_2, Hj.
  - destruct j as [|j]; [lia|].
    destruct Hc as (_ & _ & Hrest). eapply (IH Hrest i j); eauto. lia.
Qed.

Lemma chain_staged user_input h :
  chain user_input h -> Forall (staged user_input) h.
Proof.
  induction h as [|cp h IH]; intros Hc; constructor.
  - apply Hc.
  - apply IH, Hc.
Qed.

Lemma node_fn_update n st s update s' :
  node_fn n st s = (Return update, s') -> node_update n update.
Proof.
  destruct n; cbn [node_fn]; unfold planner_node, executor_node, writer_node;
    run_monad;
    repeat match goal with
      | |- context [match ?x with Some _ => _ | None => _ end] => destruct x
      | |- context [match ?x with Return _ => _ | Raise _ => _ end] => destruct x
      end;
    intros H; try discriminate; injection H as <- _; repeat split; eauto.
Qed.

Lemma latest_history tid s cp :
  latest tid s = Some cp -> exists older, history tid s = cp :: older.
Proof.
  unfold latest, history. destruct (memory s !! tid) as [[|c l]|]; try discriminate.
  intros H. injection H as ->. eauto.
Qed.

Lemma node_fn_same_memory n st s : memory (node_fn n st s).2 = memory s.
Proof.
  apply (node_fn_memory (fun s' => memory s' = memory s) n st); [|reflexivity].
  intros s1 s2 Heq H. congruence.
Qed.

Lemma staged_step user_input cp n update :
  staged user_input cp -> next cp = Node n -> node_update n update ->
  staged user_input (mkCheckpoint (apply_writes (values cp) update) (edge n)) /\
  preserved (values cp) (apply_writes (values cp) update).
Proof.
  unfold staged. intros Hst Hn [Hu Hup]. rewrite Hn in Hst.
  destruct cp as [[ur ss sr fi] nx], update as [uur uss usr ufi].
  cbn in *. subst.
  destruct n; cbn in *; destruct Hst as (H0 & H1 & H2 & H3), Hup as (U1 & U2 & U3);
    subst; repeat match goal with H : is_Some _ |- _ => destruct H as [? ->] end;
    cbn; repeat split; eauto; intros; cbn in *; congruence.
Qed.

Lemma staged_start user_input cp writes :
  staged user_input cp -> next cp = START writes ->
  staged user_input
    (mkCheckpoint (apply_writes (values cp) writes) (Node entry_point)) /\
  preserved (values cp) (apply_writes (values cp) writes).
Proof.
  unfold staged. intros Hst Hn. rewrite Hn in Hst. destruct Hst as [Hv ->].
  rewrite Hv. cbn. repeat split; auto; intros; discriminate.
Qed.

(** One superstep from the latest checkpoint of a good history leaves a good
    history, and when it returns its checkpoint is the latest. *)
Lemma superstep_chain tid user_input cp n s r s' :
  latest tid s = Some cp -> chain user_input (history tid s) -> next cp = Node n ->
  superstep tid cp n s = (r, s') ->
  chain user_input (history tid s') /\
  forall cp', r = Return cp' -> latest tid s' = Some cp' /\ next cp' = edge n.
Proof.
  intros Hlatest Hchain Hn. unfold superstep.
  pose proof (node_fn_same_memory n (values cp) s) as Hmem.
  unfold bind at 1.
  destruct (node_fn n (values cp) s) as [[update|e] s1] eqn:Hnode; cbn [snd] in Hmem.
  2:{ intros H. injection H as <- <-. split; [|discriminate].
      unfold history. now rewrite Hmem. }
  run_monad. intros H. injection H as <- <-. split.
  - unfold history. cbn [memory]. rewrite lookup_insert_eq. cbn [default].
    rewrite Hmem. destruct (latest_history tid s cp Hlatest) as [older Hh].
    unfold history in Hh, Hchain. rewrite Hh in *. cbn [default].
    destruct Hchain as (Hst & Hprev & Hrest).
    destruct (staged_step user_input cp n update Hst Hn
                (node_fn_update _ _ _ _ _ Hnode)) as [Hst' Hpres].
    cbn [chain values]. split; [exact Hst'|]. split; [exact Hpres|].
    split; [exact Hst|]. split; [exact Hprev|exact Hrest].
  - intros cp' Hret. injection Hret as <-. split; [|reflexivity].
    unfold latest. cbn [memory]. now rewrite lookup_insert_eq.
Qed.

Lemma put_chain tid user_input cp cp' s :
  latest tid s = Some cp -> chain user_input (history tid s) ->
  staged user_input cp' -> preserved (values cp) (values cp') ->
  latest tid (put tid cp' s).2 = Some cp' /\
  chain user_input (history tid (put tid cp' s).2).
Proof.
  intros Hlatest Hchain Hst Hpres. unfold put, latest, history. cbn [snd memory].
  rewrite lookup_insert_eq. split; [reflexivity|]. cbn [default].
  destruct (latest_history tid s cp Hlatest) as [older Hh].
  unfold history in Hh, Hchain. rewrite Hh in *. cbn [default chain].
  split; [exact Hst|]. split; [exact Hpres|exact Hchain].
Qed.

Lemma pregel_loop_chain tid user_input ib steps : forall resuming cp s,
  latest tid s = Some cp -> chain user_input (history tid s) ->
  chain user_input (history tid (pregel_loop steps ib tid resuming cp s).2).
Proof.
  induction steps as [|steps IH]; intros resuming cp s Hlatest Hchain;
    rewrite pregel_loop_unfold;
    (destruct (next cp) as [writes|n|] eqn:Hn; [| |exact Hchain]);
    try (destruct (negb resuming && bool_decide (n ∈ ib)); [exact Hchain|]);
    try exact Hchain.
  - cbv zeta.
    assert (Hst : staged user_input cp).
    { destruct (latest_history tid s cp Hlatest) as [older Hh].
      rewrite Hh in Hchain. apply Hchain. }
    destruct (staged_start user_input cp writes Hst Hn) as [Hst' Hpres].
    destruct (put_chain tid user_input cp _ s Hlatest Hchain Hst' Hpres) as [Hl Hc].
    unfold bind. unfold put in *. cbn [fst snd] in *. apply IH; assumption.
  - unfold bind. destruct (superstep tid cp n s) as [r s1] eqn:Hstep.
    destruct (superstep_chain tid user_input cp n s r s1 Hlatest Hchain Hn Hstep)
      as [Hc Hl].
    destruct r as [cp'|e]; [|exact Hc].
    apply IH; [apply (Hl cp' eq_refl)|exact Hc].
Qed.

Lemma start_chain tid user_input ib s :
  memory s !! tid = None ->
  chain user_input (history tid (run ib (Some (initial_input user_input)) tid s).2).
Proof.
  intros Hfresh. unfold run. run_monad. unfold latest. rewrite Hfresh.
  cbn [mbind option_bind fmap option_fmap option_map default].
  apply pregel_loop_chain.
  - unfold latest. cbn [memory]. now rewrite lookup_insert_eq.
  - unfold history. cbn [memory]. rewrite lookup_insert_eq. cbn.
    repeat split; auto.
Qed.

Lemma resume_chain tid user_input ib s :
  chain user_input (history tid s) ->
  chain user_input (history tid (run ib None tid s).2).
Proof.
  intros Hchain. unfold run. run_monad.
  destruct (latest tid s) as [cp|] eqn:Hlatest; [|exact Hchain].
  now apply pregel_loop_chain.
Qed.

(** C2.  In a session started by [main] under a thread id not used before,
    every checkpoint ever written has its fields set in pipeline order
    ([search_results] only with [search_strategy], [final_itinerary] only
    with [search_results]); it has no field set at all (the checkpoint
    written while the input waits at the start of the graph) or it holds
    the request; and every field set in a checkpoint has the same value in
    every later checkpoint: nothing is cleared or changed. *)
Theorem fields_set_in_order_and_kept (thread_id user_input approval : string)
    (s : State) :
  memory s !! thread_id = None ->
  let h := history thread_id (main thread_id user_input approval s).2 in
  Forall (fun cp => pipeline_order (values cp) /\
                    (values cp = empty_state \/
                     user_request (values cp) = Some user_input)) h /\
  forall i j newer older, i <= j -> h !! i = Some newer -> h !! j = Some older ->
    preserved (values older) (values newer).
Proof.
  intros Hfresh h.
  assert (Hchain : chain user_input h).
  { subst h.
    set (Fresh := fun s' : State => memory s' !! thread_id = None).
    set (G := fun s' : State => chain user_input (history thread_id s')).
    assert (HF : of_memory Fresh).
    { intros s1 s2 Heq H. unfold Fresh in *. now rewrite <- Heq. }
    assert (HG : of_memory G).
    { intros s1 s2 Heq H. unfold G, history in *. now rewrite <- Heq. }
    assert (HFG : forall s', Fresh s' -> G s').
    { intros s' H. unfold Fresh, G, history in *. now rewrite H. }
    assert (Hmain : hoare Fresh (main thread_id user_input approval) G).
    { unfold main.
      eapply hoare_bind; [now apply emit_memory| |exact HFG]. intros _.
      eapply hoare_bind; [now apply emit_memory| |exact HFG]. intros _.
      eapply (hoare_bind _ G).
      { unfold astream. eapply (hoare_bind _ G).
        - intros s' Hs'. now apply start_chain.
        - intros _. apply hoare_ret.
        - auto. }
      2: auto.
      intros _. unfold aget_state, print, logger_info, logger_warning.
      destruct (String.eqb (lower approval) "y");
        repeat first
          [ apply emit_memory; assumption | apply call_memory; assumption
          | apply hoare_getitem | apply hoare_ret | apply get_tuple_keeps
          | (intros s' Hs'; now apply resume_chain)
          | match goal with |- hoare _ (if ?b then _ else _) _ => destruct b end
          | apply hoare_keep; [|intros ?] ]. }
    apply Hmain. exact Hfresh. }
  split.
  - eapply Forall_impl; [apply chain_staged, Hchain|].
    intros cp Hst.
    split; [eapply staged_pipeline_order, Hst|eapply staged_request, Hst].
  - now apply chain_pairwise with (user_input := user_input).
Qed.

(** ** Runs of the executor and of the graph, step by step *)

Lemma superstep_Return tid cp n s cp' s' :
  superstep tid cp n s = (Return cp', s') ->
  next cp' = edge n /\ latest tid s' = Some cp' /\
  exists update s1,
    node_fn n (values cp) s = (Return update, s1) /\
    values cp' = apply_writes (values cp) update /\ trace s' = trace s1.
Proof.
  unfold superstep. unfold bind at 1.
  destruct (node_fn n (values cp) s) as [[update|e] s1]; [|discriminate].
  run_monad. intros H. injection H as <- <-. cbn [next values trace].
  split; [reflexivity|]. split; [|eauto].
  unfold latest. cbn [memory]. now rewrite lookup_insert_eq.
Qed.

Lemma superstep_Raise tid cp n s e s' :
  superstep tid cp n s = (Raise e, s') -> node_fn n (values cp) s = (Raise e, s').
Proof.
  unfold superstep. unfold bind at 1.
  destruct (node_fn n (values cp) s) as [[update|e'] s1];
    [run_monad; discriminate | intros H; injection H as <- <-; reflexivity].
Qed.

(** From a checkpoint at the executor, the resumed run of the interrupting
    graph and the run of the graph without interrupt are the same. *)
Lemma loop_from_executor tid cp s n m :
  next cp = Node executor ->
  pregel_loop (S (S n)) interrupt_before tid true cp s =
  pregel_loop (S (S m)) [] tid false cp s.
Proof.
  intros Hn. rewrite !pregel_loop_unfold, Hn. cbn [negb andb].
  change (bool_decide (executor ∈ [])) with false. cbv iota.
  unfold bind. destruct (superstep tid cp executor s) as [[cp'|e] s1] eqn:Hstep;
    [|reflexivity].
  apply superstep_Return in Hstep as (Hn' & _). cbn [edge] in Hn'.
  rewrite !pregel_loop_unfold, Hn'.
  change (negb false && bool_decide (writer ∈ interrupt_before)) with false.
  change (negb false && bool_decide (writer ∈ [])) with false. cbv iota.
  unfold bind. destruct (superstep tid cp' writer s1) as [[cp''|e] s2] eqn:Hstep'; [|reflexivity].
  apply superstep_Return in Hstep' as (Hn'' & _). cbn [edge] in Hn''.
  now rewrite !pregel_loop_unfold, Hn''.
Qed.

(** The resumed run when the executor raises: the exception leaves the run
    and the state is the one the executor left. *)
Lemma resume_executor_raises tid cp s e s' :
  latest tid s = Some cp -> next cp = Node executor ->
  executor_node (values cp) s = (Raise e, s') ->
  ainvoke None tid s = (Raise e, s').
Proof.
  intros Hlatest Hn Hex. unfold ainvoke, run. run_monad. rewrite Hlatest.
  rewrite pregel_loop_unfold, Hn. cbn [negb andb]. unfold recursion_limit.
  unfold superstep. cbn [node_fn]. run_monad. now rewrite Hex.
Qed.

(** The start of a session whose planner returns. *)
Lemma start_returns tid user_input strategy s :
  invoke_SearchStrategy planner_system_prompt user_input = Return strategy ->
  exists cp1 s1,
    run interrupt_before (Some (initial_input user_input)) tid s =
      (Return (values cp1), s1) /\
    latest tid s1 = Some cp1 /\ next cp1 = Node executor /\
    search_strategy (values cp1) = Some strategy /\
    trace s1 = trace s ++
      [Log "INFO" "Planner Node: Generating search strategy.";
       LLMInvoke "SearchStrategy" planner_system_prompt user_input].
Proof.
  intros Hplan. unfold run. run_monad.
  rewrite pregel_loop_unfold. cbn [next]. unfold recursion_limit. run_monad.
  rewrite pregel_loop_unfold. cbn [next].
  change (negb false && bool_decide (entry_point ∈ interrupt_before)) with false.
  cbv iota. unfold superstep. cbn [entry_point node_fn]. unfold planner_node.
  cbn [values apply_writes user_request write initial_input]. run_monad.
  rewrite Hplan. rewrite pregel_loop_unfold. cbn [next edge].
  change (negb false && bool_decide (executor ∈ interrupt_before)) with true.
  cbv iota. run_monad. eexists (mkCheckpoint _ _), _.
  split; [reflexivity|]. cbn [values next trace].
  split; [unfold latest; cbn [memory]; now rewrite lookup_insert_eq|].
  split; [reflexivity|]. split; [reflexivity|].
  now rewrite <- app_assoc.
Qed.

(** ** C3: resuming from the checkpoint *)

(** C3, as the code has it.  Within one process, the start of a session
    followed by the resumed run gives exactly what the graph without
    interrupt gives on the same input: the same final state (hence the same
    itinerary) or the same exception, the same checkpoints and the same
    calls.  The checkpoints live in the memory of the process: once the
    process has been started again no thread has a checkpoint, and a resumed
    run raises instead of continuing the session. *)
Theorem resume_in_process_is_uninterrupted_run (thread_id user_input : string)
    (s : State) :
  (astream (Some (initial_input user_input)) thread_id ;; ainvoke None thread_id) s =
    ainvoke_uninterrupted (Some (initial_input user_input)) thread_id s /\
  latest thread_id (restart s) = None /\
  ainvoke None thread_id (restart s) =
    (Raise (Exn "EmptyInputError" "Received no input for __start__" None), restart s).
Proof.
  split; [|split; reflexivity].
  unfold astream, ainvoke, ainvoke_uninterrupted, run. run_monad.
  unfold recursion_limit.
  rewrite !pregel_loop_unfold. cbn [next]. run_monad.
  rewrite !pregel_loop_unfold. cbn [next].
  change (negb false && bool_decide (entry_point ∈ interrupt_before)) with false.
  change (negb false && bool_decide (entry_point ∈ [])) with false. cbv iota.
  unfold bind.
  match goal with
  | |- context [superstep ?t ?c ?n ?s0] =>
      destruct (superstep t c n s0) as [[cp1|e] s1] eqn:Hstep
  end; [|reflexivity].
  apply superstep_Return in Hstep as (Hn & Hl & _). cbn [edge entry_point] in Hn.
  rewrite (pregel_loop_unfold _ interrupt_before), Hn.
  change (negb false && bool_decide (executor ∈ interrupt_before)) with true.
  cbv iota. run_monad. rewrite Hl.
  apply loop_from_executor, Hn.
Qed.

(** ** C5: a failure of the transport *)

Lemma spawns_app l1 l2 : spawns (l1 ++ l2) = spawns l1 ++ spawns l2.
Proof. apply filter_app. Qed.

Lemma llm_calls_app l1 l2 : llm_calls (l1 ++ l2) = llm_calls l1 ++ llm_calls l2.
Proof. apply filter_app. Qed.

Lemma executor_node_fails st strategy e s :
  search_strategy st = Some strategy ->
  transport_fails (queries strategy) e ->
  exists evs,
    executor_node st s =
      (Raise (caught e),
       mkState (memory s)
         (trace s ++ evs ++
          [Log "ERROR" ("Failed to execute MCP tool: " +:+ exc_str (caught e))])) /\
    spawns evs = [StdioSpawn sys_executable ["mcp_server.py"]] /\
    llm_calls evs = [].
Proof.
  intros Hst Hfail. unfold executor_node, caught. rewrite Hst. run_monad.
  destruct Hfail as [H1|(H1 & [H2|(H2 & [H3|([tools H3] & H4)])])];
    rewrite ?H1, ?H2, ?H3, ?H4; run_monad; rewrite <- !app_assoc; cbn [app].
  - exists [Log "INFO" "Executor Node: Connecting to MCP Server.";
            StdioSpawn sys_executable ["mcp_server.py"]].
    repeat split; reflexivity.
  - exists [Log "INFO" "Executor Node: Connecting to MCP Server.";
            StdioSpawn sys_executable ["mcp_server.py"]; SessionInitialize;
            StdioClose]. repeat split; reflexivity.
  - exists [Log "INFO" "Executor Node: Connecting to MCP Server.";
            StdioSpawn sys_executable ["mcp_server.py"]; SessionInitialize;
            SessionListTools; StdioClose]. repeat split; reflexivity.
  - eexists [Log "INFO" "Executor Node: Connecting to MCP Server.";
             StdioSpawn sys_executable ["mcp_server.py"]; SessionInitialize;
             SessionListTools; Log "INFO" _; SessionCallTool _ _; StdioClose].
    repeat split; reflexivity.
Qed.

(** C5, as the code has it.  When the planner has returned a strategy and
    the run is approved, an exception [e] raised by the spawn, the
    handshake, the capability discovery or the tool call reaches the
    [except] clause of the executor as [caught e]: [e] itself when the spawn
    failed, and otherwise [e] as the exits of the client session and of the
    stdio client pass it on.  The executor logs it at level ERROR and raises
    again what it caught, whatever its class: it builds no other exception.
    The resumed run raises it and [main] ends with it.  The tool process is
    spawned once (no retry), the language model is called by the planner
    only (the writer does not run), and nothing is written to the
    checkpoints of the session after the plan. *)
Theorem transport_failure_is_reraised_as_is (thread_id user_input approval : string)
    (strategy : SearchStrategy) (e : exn) (s : State) :
  invoke_SearchStrategy planner_system_prompt user_input = Return strategy ->
  transport_fails (queries strategy) e ->
  lower approval = "y" ->
  (stdio_client sys_executable ["mcp_server.py"] = Raise e -> caught e = e) /\
  (stdio_client sys_executable ["mcp_server.py"] = Return tt ->
   caught e = stdio_client_exit (session_exit e)) /\
  (forall st s0, search_strategy st = Some strategy ->
     (executor_node st s0).1 = Raise (caught e) /\
     last (trace (executor_node st s0).2) =
       Some (Log "ERROR" ("Failed to execute MCP tool: " +:+ exc_str (caught e)))) /\
  (forall cp s0, latest thread_id s0 = Some cp -> next cp = Node executor ->
     search_strategy (values cp) = Some strategy ->
     ainvoke None thread_id s0 =
       (Raise (caught e), (executor_node (values cp) s0).2) /\
     memory (executor_node (values cp) s0).2 = memory s0) /\
  let s' := (main thread_id user_input approval s).2 in
  (main thread_id user_input approval s).1 = Raise (caught e) /\
  last (trace s') =
    Some (Log "ERROR" ("Failed to execute MCP tool: " +:+ exc_str (caught e))) /\
  spawns (trace s') = spawns (trace s) ++ [StdioSpawn sys_executable ["mcp_server.py"]] /\
  llm_calls (trace s') =
    llm_calls (trace s) ++ [LLMInvoke "SearchStrategy" planner_system_prompt user_input] /\
  exists cp, latest thread_id s' = Some cp /\ next cp = Node executor.
Proof.
  intros Hplan Hfail Hyes.
  split; [intros H; unfold caught; now rewrite H|].
  split; [intros H; unfold caught; now rewrite H|].
  assert (Hnode : forall st s0, search_strategy st = Some strategy ->
            (executor_node st s0).1 = Raise (caught e) /\
            last (trace (executor_node st s0).2) =
              Some (Log "ERROR"
                      ("Failed to execute MCP tool: " +:+ exc_str (caught e)))).
  { intros st s0 Hst.
    destruct (executor_node_fails st strategy e s0 Hst Hfail) as (evs & -> & _).
    cbn [fst snd trace]. split; [reflexivity|]. now rewrite !app_assoc, last_snoc. }
  assert (Hresume : forall cp s0, latest thread_id s0 = Some cp ->
            next cp = Node executor -> search_strategy (values cp) = Some strategy ->
            ainvoke None thread_id s0 =
              (Raise (caught e), (executor_node (values cp) s0).2) /\
            memory (executor_node (values cp) s0).2 = memory s0).
  { intros cp s0 Hl Hn Hst.
    destruct (executor_node_fails (values cp) strategy e s0 Hst Hfail)
      as (evs & Hex & _).
    split; [|now rewrite Hex].
    apply (resume_executor_raises thread_id cp); auto. rewrite Hex. reflexivity. }
  split; [exact Hnode|]. split; [exact Hresume|].
  unfold main. fold (initial_input user_input).
  rewrite Hyes. cbn [String.eqb Ascii.eqb Bool.eqb]. cbv iota.
  unfold astream, aget_state, print, logger_info. run_monad.
  match goal with
  | |- context [run interrupt_before ?i thread_id ?s0] =>
      destruct (start_returns thread_id user_input strategy s0 Hplan)
        as (cp1 & s1 & Hrun & Hl & Hn & Hst & Htr)
  end.
  rewrite Hrun. run_monad. rewrite Hl.
  change (default empty_state (values <$> Some cp1)) with (values cp1).
  rewrite Hst. cbv beta iota.
  match goal with
  | |- context [ainvoke None thread_id ?s0] =>
      destruct (executor_node_fails (values cp1) strategy e s0 Hst Hfail)
        as (evs & Hex & Hsp & Hllm);
      destruct (Hresume cp1 s0) as [Hres _]; [exact Hl|exact Hn|exact Hst|];
      rewrite Hres, Hex
  end.
  cbn [fst snd trace memory]. rewrite Htr. cbn [trace].
  split; [reflexivity|].
  split; [now rewrite !app_assoc, last_snoc|].
  split; [|split].
  - rewrite !spawns_app, Hsp. cbn. now rewrite !app_nil_r.
  - rewrite !llm_calls_app, Hllm. cbn. now rewrite !app_nil_r.
  - exists cp1. split; [|exact Hn]. unfold latest in *. exact Hl.
Qed.

(** ** C9: the extraction of the text *)

Lemma join_empty_cons x l : join EmptyString (x :: l) = x +:+ join EmptyString l.
Proof.
  unfold join. destruct l as [|y l]; [|reflexivity].
  cbn [String.concat]. now rewrite str_app_nil_r.
Qed.

Lemma extract_text_from acc blocks :
  fold_left
    (fun final_text content =>
       if String.eqb (type content) "text" then final_text +:+ text content
       else final_text) blocks acc =
  acc +:+ join EmptyString (text <$> filter (fun b => type b = "text") blocks).
Proof.
  revert acc. induction blocks as [|b blocks IH]; intros acc.
  - cbn. now rewrite str_app_nil_r.
  - cbn [fold_left]. rewrite IH. destruct b; cbn [type text String.eqb Ascii.eqb Bool.eqb].
    + rewrite filter_cons_True by reflexivity. rewrite fmap_cons, join_empty_cons.
      cbn [text]. now rewrite str_app_assoc.
    + now rewrite filter_cons_False by discriminate.
    + now rewrite filter_cons_False by discriminate.
    + now rewrite filter_cons_False by discriminate.
    + now rewrite filter_cons_False by discriminate.
Qed.

(** C9.  The extraction gives the concatenation, in order, of the text of
    the blocks whose type is "text" and skips every other block; on no block
    at all it gives the empty string; and this is the value the executor
    stores in [search_results] when the transport returns the blocks. *)
Theorem extraction_concatenates_text_blocks :
  (forall blocks,
     extract_text blocks =
       join EmptyString (text <$> filter (fun b => type b = "text") blocks)) /\
  extract_text [] = EmptyString /\
  (forall st strategy tools blocks s,
     search_strategy st = Some strategy ->
     stdio_client sys_executable ["mcp_server.py"] = Return tt ->
     initialize = Return tt ->
     list_tools = Return tools ->
     call_tool "search_tourism" (queries strategy) = Return blocks ->
     (executor_node st s).1 =
       Return (mkAgentState None None
                 (Some (join EmptyString
                          (text <$> filter (fun b => type b = "text") blocks)))
                 None)).
Proof.
  assert (Hext : forall blocks,
            extract_text blocks =
              join EmptyString (text <$> filter (fun b => type b = "text") blocks)).
  { intros blocks. unfold extract_text. now rewrite extract_text_from. }
  split; [exact Hext|]. split; [reflexivity|].
  intros st strategy tools blocks s Hst H1 H2 H3 H4.
  unfold executor_node. rewrite Hst. run_monad.
  rewrite H1, H2, H3, H4. cbn [fst]. now rewrite Hext.
Qed.

(** ** Further properties of the agent *)

(** The start of a session whose planner raises. *)
Lemma start_raises tid user_input e s :
  invoke_SearchStrategy planner_system_prompt user_input = Raise e ->
  run interrupt_before (Some (initial_input user_input)) tid s =
    (Raise e,
     mkState
       (<[tid := [mkCheckpoint
                    (apply_writes (default empty_state (values <$> latest tid s))
                       (initial_input user_input))
                    (Node planner);
                  mkCheckpoint (default empty_state (values <$> latest tid s))
                    (START (initial_input user_input))] ++
                 default [] (memory s !! tid)]> (memory s))
       (trace s ++
        [Log "INFO" "Planner Node: Generating search strategy.";
         LLMInvoke "SearchStrategy" planner_system_prompt user_input])).
Proof.
  intros Hplan. unfold run. run_monad.
  rewrite pregel_loop_unfold. cbn [next]. unfold recursion_limit. run_monad.
  rewrite pregel_loop_unfold. cbn [next].
  change (negb false && bool_decide (entry_point ∈ interrupt_before)) with false.
  cbv iota. unfold superstep. cbn [entry_point node_fn]. unfold planner_node.
  cbn [values apply_writes user_request write initial_input]. run_monad.
  rewrite Hplan. rewrite lookup_insert_eq, insert_insert_eq.
  now rewrite <- app_assoc.
Qed.

(** The executor when every step of the transport returns. *)
Lemma executor_node_returns st strategy tools blocks s :
  search_strategy st = Some strategy ->
  stdio_client sys_executable ["mcp_server.py"] = Return tt ->
  initialize = Return tt ->
  list_tools = Return tools ->
  call_tool "search_tourism" (queries strategy) = Return blocks ->
  executor_node st s =
    (Return (mkAgentState None None (Some (extract_text blocks)) None),
     mkState (memory s)
       (trace s ++
        [Log "INFO" "Executor Node: Connecting to MCP Server.";
         StdioSpawn sys_executable ["mcp_server.py"];
         SessionInitialize;
         SessionListTools;
         Log "INFO" ("Executing search for " +:+
                     str_of_nat (length (queries strategy)) +:+ " queries.");
         SessionCallTool "search_tourism" (queries strategy);
         Log "INFO" "Search completed successfully.";
         StdioClose])).
Proof.
  intros Hst H1 H2 H3 H4. unfold executor_node. rewrite Hst. run_monad.
  rewrite H1, H2, H3, H4. cbn [fst snd memory trace].
  now rewrite <- !app_assoc.
Qed.

(** The writer when the model returns. *)
Lemma writer_node_returns st request results trip s :
  user_request st = Some request -> search_results st = Some results ->
  invoke_TripItinerary writer_system_prompt (writer_context request results) =
    Return trip ->
  writer_node st s =
    (Return (mkAgentState None None None (Some trip)),
     mkState (memory s)
       (trace s ++
        [Log "INFO" "Writer Node: Composing final itinerary.";
         LLMInvoke "TripItinerary" writer_system_prompt
           (writer_context request results)])).
Proof.
  intros Hreq Hres Hw. unfold writer_node. rewrite Hreq, Hres. run_monad.
  rewrite Hw. now rewrite <- app_assoc.
Qed.

(** The start of a session under a thread id not used before, when the
    planner returns. *)
Lemma start_returns_fresh tid user_input strategy s :
  memory s !! tid = None ->
  invoke_SearchStrategy planner_system_prompt user_input = Return strategy ->
  run interrupt_before (Some (initial_input user_input)) tid s =
    (Return (mkAgentState (Some user_input) (Some strategy) None None),
     mkState
       (<[tid := [mkCheckpoint (mkAgentState (Some user_input) (Some strategy) None None)
                    (Node executor);
                  mkCheckpoint (initial_input user_input) (Node planner);
                  mkCheckpoint empty_state (START (initial_input user_input))]]>
          (memory s))
       (trace s ++
        [Log "INFO" "Planner Node: Generating search strategy.";
         LLMInvoke "SearchStrategy" planner_system_prompt user_input])).
Proof.
  intros Hfresh Hplan. unfold run. run_monad. unfold latest. rewrite Hfresh.
  cbn [mbind option_bind fmap option_fmap option_map default].
  rewrite pregel_loop_unfold. cbn [next]. unfold recursion_limit. run_monad.
  rewrite pregel_loop_unfold. cbn [next].
  change (negb false && bool_decide (entry_point ∈ interrupt_before)) with false.
  cbv iota. unfold superstep. cbn [entry_point node_fn]. unfold planner_node.
  cbn [values apply_writes user_request write initial_input empty_state]. run_monad.
  rewrite Hplan. rewrite pregel_loop_unfold. cbn [next edge].
  change (negb false && bool_decide (executor ∈ interrupt_before)) with true.
  cbv iota. run_monad. rewrite !lookup_insert_eq, !insert_insert_eq.
  now rewrite <- app_assoc.
Qed.

(** The resumed run of a session when the transport and the writer return. *)
Lemma resume_returns tid cp request strategy tools blocks trip s :
  latest tid s = Some cp -> next cp = Node executor ->
  values cp = mkAgentState (Some request) (Some strategy) None None ->
  stdio_client sys_executable ["mcp_server.py"] = Return tt ->
  initialize = Return tt ->
  list_tools = Return tools ->
  call_tool "search_tourism" (queries strategy) = Return blocks ->
  invoke_TripItinerary writer_system_prompt
    (writer_context request (extract_text blocks)) = Return trip ->
  exists s',
    ainvoke None tid s =
      (Return (mkAgentState (Some request) (Some strategy)
                 (Some (extract_text blocks)) (Some trip)), s') /\
    history tid s' =
      [mkCheckpoint (mkAgentState (Some request) (Some strategy)
                       (Some (extract_text blocks)) (Some trip)) END;
       mkCheckpoint (mkAgentState (Some request) (Some strategy)
                       (Some (extract_text blocks)) None) (Node writer)] ++
      history tid s /\
    trace s' = trace s ++
      [Log "INFO" "Executor Node: Connecting to MCP Server.";
       StdioSpawn sys_executable ["mcp_server.py"];
       SessionInitialize;
       SessionListTools;
       Log "INFO" ("Executing search for " +:+
                   str_of_nat (length (queries strategy)) +:+ " queries.");
       SessionCallTool "search_tourism" (queries strategy);
       Log "INFO" "Search completed successfully.";
       StdioClose;
       Log "INFO" "Writer Node: Composing final itinerary.";
       LLMInvoke "TripItinerary" writer_system_prompt
         (writer_context request (extract_text blocks))].
Proof.
  intros Hl Hn Hv H1 H2 H3 H4 Hw.
  unfold ainvoke, run. run_monad. rewrite Hl.
  rewrite pregel_loop_unfold, Hn. cbn [negb andb]. unfold recursion_limit.
  unfold superstep at 1. cbn [node_fn]. run_monad.
  rewrite (executor_node_returns (values cp) strategy tools blocks s
             ltac:(now rewrite Hv) H1 H2 H3 H4).
  cbn [fst snd memory trace].
  rewrite pregel_loop_unfold. cbn [next edge].
  change (negb false && bool_decide (writer ∈ interrupt_before)) with false.
  cbv iota. unfold superstep at 1. cbn [node_fn values]. run_monad.
  rewrite Hv.
  cbn [apply_writes write user_request search_strategy search_results final_itinerary].
  erewrite writer_node_returns; [|reflexivity|reflexivity|exact Hw].
  cbn [fst snd memory trace].
  rewrite pregel_loop_unfold. cbn [next edge]. run_monad.
  eexists. split; [reflexivity|]. split.
  - unfold history. cbn [memory]. now rewrite !lookup_insert_eq.
  - cbn [trace]. now rewrite <- app_assoc.
Qed.

Lemma transport_calls_app l1 l2 :
  transport_calls (l1 ++ l2) = transport_calls l1 ++ transport_calls l2.
Proof. apply filter_app. Qed.

Lemma closes_app l1 l2 : closes (l1 ++ l2) = closes l1 ++ closes l2.
Proof. apply filter_app. Qed.

(** X7.  When the language model raises while planning, [main] ends with
    that exception before the approval prompt: the only events are the two
    records of [main], the record of the planner and its call of the model,
    and the thread holds two checkpoints: the empty one written while the
    input waits at the start of the graph, and the one with the request,
    before the planner. *)
Theorem planning_failure_ends_before_the_prompt (thread_id user_input approval : string)
    (e : exn) (s : State) :
  memory s !! thread_id = None ->
  invoke_SearchStrategy planner_system_prompt user_input = Raise e ->
  let s' := (main thread_id user_input approval s).2 in
  (main thread_id user_input approval s).1 = Raise e /\
  trace s' = trace s ++
    [Log "INFO" ("Starting Session ID: " +:+ thread_id);
     Log "INFO" ("Processing request: " +:+ user_input);
     Log "INFO" "Planner Node: Generating search strategy.";
     LLMInvoke "SearchStrategy" planner_system_prompt user_input] /\
  history thread_id s' =
    [mkCheckpoint (initial_input user_input) (Node planner);
     mkCheckpoint empty_state (START (initial_input user_input))].
Proof.
  intros Hfresh Hplan. unfold main. fold (initial_input user_input).
  unfold astream, logger_info. run_monad.
  rewrite (start_raises thread_id user_input e _ Hplan).
  cbn [fst snd trace memory]. split; [reflexivity|]. split.
  - now rewrite <- !app_assoc.
  - unfold history, latest. cbn [memory]. rewrite lookup_insert_eq, Hfresh.
    reflexivity.
Qed.

(** X8.  When the run is approved and every collaborator returns, [main]
    returns; the thread holds five checkpoints: the empty one written while
    the input waits at the start of the graph, then one after the input and
    one after each node, up to the final state with the strategy of the
    planner, the extracted text and the itinerary of the writer; the tool
    is called once, with the queries of the strategy; the writer is given
    the request and the extracted text; and the tool process is released. *)
Theorem approved_run_completes (thread_id user_input approval : string)
    (strategy : SearchStrategy) (tools : list string) (blocks : list ContentBlock)
    (trip : TripItinerary) (saved : option string) (s : State) :
  memory s !! thread_id = None ->
  invoke_SearchStrategy planner_system_prompt user_input = Return strategy ->
  stdio_client sys_executable ["mcp_server.py"] = Return tt ->
  initialize = Return tt ->
  list_tools = Return tools ->
  call_tool "search_tourism" (queries strategy) = Return blocks ->
  invoke_TripItinerary writer_system_prompt
    (writer_context user_input (extract_text blocks)) = Return trip ->
  save_itinerary_to_markdown trip = Return saved ->
  lower approval = "y" ->
  let s' := (main thread_id user_input approval s).2 in
  (main thread_id user_input approval s).1 = Return tt /\
  history thread_id s' =
    [mkCheckpoint (mkAgentState (Some user_input) (Some strategy)
                     (Some (extract_text blocks)) (Some trip)) END;
     mkCheckpoint (mkAgentState (Some user_input) (Some strategy)
                     (Some (extract_text blocks)) None) (Node writer);
     mkCheckpoint (mkAgentState (Some user_input) (Some strategy) None None)
       (Node executor);
     mkCheckpoint (initial_input user_input) (Node planner);
     mkCheckpoint empty_state (START (initial_input user_input))] /\
  transport_calls (trace s') = transport_calls (trace s) ++
    [StdioSpawn sys_executable ["mcp_server.py"]; SessionInitialize;
     SessionListTools; SessionCallTool "search_tourism" (queries strategy)] /\
  llm_calls (trace s') = llm_calls (trace s) ++
    [LLMInvoke "SearchStrategy" planner_system_prompt user_input;
     LLMInvoke "TripItinerary" writer_system_prompt
       (writer_context user_input (extract_text blocks))] /\
  closes (trace s') = closes (trace s) ++ [StdioClose].
Proof.
  intros Hfresh Hplan H1 H2 H3 H4 Hw Hsave Hyes. cbv zeta.
  destruct (main thread_id user_input approval s) as [r s'] eqn:Hmain.
  cbn [fst snd]. revert Hmain.
  unfold main. fold (initial_input user_input).
  rewrite Hyes. cbn [String.eqb Ascii.eqb Bool.eqb]. cbv iota.
  unfold astream, aget_state, print, logger_info. run_monad.
  match goal with
  | |- context [run interrupt_before ?i thread_id ?s0] =>
      rewrite (start_returns_fresh thread_id user_input strategy s0 Hfresh Hplan)
  end.
  run_monad. unfold latest at 1. cbn [memory]. rewrite lookup_insert_eq.
  cbv beta iota delta [mbind option_bind head fmap option_fmap option_map default
                       from_option id values search_strategy].
  cbn [memory trace].
  match goal with
  | |- context [ainvoke None thread_id ?s0] =>
      destruct (resume_returns thread_id
                  (mkCheckpoint (mkAgentState (Some user_input) (Some strategy) None None)
                     (Node executor))
                  user_input strategy tools blocks trip s0)
        as (s3 & Hres & Hhist & Htr); auto;
        [unfold latest; cbn [memory]; now rewrite lookup_insert_eq|];
      rewrite Hres; unfold history in Hhist; cbn [memory] in Hhist;
      rewrite lookup_insert_eq in Hhist; cbn [trace] in Htr
  end.
  cbn [final_itinerary]. cbv beta iota. rewrite Hsave. cbv beta iota.
  destruct (truthy saved); intros Hmain; injection Hmain as <- <-;
    cbn [memory trace];
    (split; [reflexivity|]);
    (split; [unfold history; cbn [memory]; rewrite Hhist; reflexivity|]);
    rewrite Htr; rewrite <- !app_assoc; cbn [app];
    rewrite transport_calls_app, llm_calls_app, closes_app;
    repeat split; reflexivity.
Qed.

(** X9.  Whatever the transport does, the executor spawns the tool process
    once, and it releases it exactly when the spawn returned: a failure of
    the handshake, of the discovery or of the tool call does not leave the
    process open, and a failed spawn leaves nothing to release. *)
Theorem tool_process_released_iff_spawned (st : AgentState)
    (strategy : SearchStrategy) (s : State) :
  search_strategy st = Some strategy ->
  spawns (trace (executor_node st s).2) =
    spawns (trace s) ++ [StdioSpawn sys_executable ["mcp_server.py"]] /\
  closes (trace (executor_node st s).2) =
    closes (trace s) ++
    match stdio_client sys_executable ["mcp_server.py"] with
    | Return _ => [StdioClose]
    | Raise _ => []
    end.
Proof.
  intros Hst. unfold executor_node. rewrite Hst. run_monad.
  destruct (stdio_client sys_executable ["mcp_server.py"]) as [[]|e1];
    [destruct initialize as [[]|e2];
     [destruct list_tools as [tools|e3];
      [destruct (call_tool "search_tourism" (queries strategy)) as [blocks|e4]|]|]|];
    cbn [fst snd memory trace]; rewrite <- !app_assoc; cbn [app];
    rewrite spawns_app, closes_app; split; reflexivity.
Qed.

(** X10.  A node that does not find its input in the state raises a
    [KeyError] naming the key before it calls any collaborator: the executor
    without [search_strategy] spawns nothing and does not log a failure of
    the tool, the writer without [search_results] and the planner without
    [user_request] do not call the model. *)
Theorem nodes_need_their_inputs (st : AgentState) (s : State) :
  (search_strategy st = None ->
   executor_node st s =
     (Raise (Exn "KeyError" "'search_strategy'" None),
      mkState (memory s)
        (trace s ++ [Log "INFO" "Executor Node: Connecting to MCP Server."]))) /\
  (is_Some (user_request st) -> search_results st = None ->
   writer_node st s =
     (Raise (Exn "KeyError" "'search_results'" None),
      mkState (memory s)
        (trace s ++ [Log "INFO" "Writer Node: Composing final itinerary."]))) /\
  (user_request st = None ->
   planner_node st s =
     (Raise (Exn "KeyError" "'user_request'" None),
      mkState (memory s)
        (trace s ++ [Log "INFO" "Planner Node: Generating search strategy."]))).
Proof.
  split; [|split].
  - intros H. unfold executor_node. rewrite H. reflexivity.
  - intros [request Hreq] H. unfold writer_node. rewrite Hreq, H. reflexivity.
  - intros H. unfold planner_node. rewrite H. reflexivity.
Qed.

Lemma lower_char_is_y c :
  lower_char c = "y"%char -> c = "y"%char \/ c = "Y"%char.
Proof.
  destruct c as [[] [] [] [] [] [] [] []]; vm_compute; intros H;
    first [discriminate H | left; reflexivity | right; reflexivity].
Qed.

Lemma lower_is_y approval :
  lower approval = "y" <-> approval = "y" \/ approval = "Y".
Proof.
  split.
  - destruct approval as [|c rest]; [discriminate|].
    unfold lower. cbn [str_map]. intros H. injection H as Hc Hrest.
    destruct rest; [|discriminate].
    destruct (lower_char_is_y c Hc) as [-> | ->]; auto.
  - intros [-> | ->]; reflexivity.
Qed.

(** X11.  The run is approved by the answers "y" and "Y" and by no other
    (not by "yes", not by " y").  On any other answer, once the planner has
    returned, [main] returns after the warning record, and the session stays
    in the store at the checkpoint before the executor, with its strategy. *)
Theorem only_y_approves (thread_id user_input approval : string)
    (strategy : SearchStrategy) (s : State) :
  (lower approval = "y" <-> approval = "y" \/ approval = "Y") /\
  (invoke_SearchStrategy planner_system_prompt user_input = Return strategy ->
   approval <> "y" -> approval <> "Y" ->
   let s' := (main thread_id user_input approval s).2 in
   (main thread_id user_input approval s).1 = Return tt /\
   last (trace s') =
     Some (Log "WARNING" "Plan rejected by user. Terminating process.") /\
   exists cp, latest thread_id s' = Some cp /\ next cp = Node executor /\
              search_strategy (values cp) = Some strategy).
Proof.
  split; [apply lower_is_y|]. intros Hplan Hy HY.
  assert (Hno : String.eqb (lower approval) "y" = false).
  { apply String.eqb_neq. rewrite lower_is_y. intros [?|?]; contradiction. }
  unfold main. fold (initial_input user_input). rewrite Hno.
  unfold astream, aget_state, print, logger_info, logger_warning. run_monad.
  match goal with
  | |- context [run interrupt_before ?i thread_id ?s0] =>
      destruct (start_returns thread_id user_input strategy s0 Hplan)
        as (cp1 & s1 & Hrun & Hl & Hn & Hst & Htr)
  end.
  rewrite Hrun. run_monad. rewrite Hl.
  change (default empty_state (values <$> Some cp1)) with (values cp1).
  rewrite Hst. cbn [fst snd trace memory].
  split; [reflexivity|]. split; [apply last_snoc|].
  exists cp1. split; [exact Hl|]. split; [exact Hn|exact Hst].
Qed.

(** The checkpoints of the other threads are kept by a run on a thread. *)
Lemma run_other_threads (P : State -> Prop) ib input tid :
  of_memory P ->
  (forall cp, hoare P (put tid cp) P) ->
  hoare P (run ib input tid) P.
Proof.
  intros HP Hput.
  assert (Hloop : forall steps resuming cp,
            hoare P (pregel_loop steps ib tid resuming cp) P).
  { induction steps as [|steps IH]; intros resuming cp;
      rewrite pregel_loop_unfold;
      (destruct (next cp) as [writes|n|]; [| |apply hoare_ret]);
      try (destruct (negb resuming && bool_decide (n ∈ ib)); [apply hoare_ret|]);
      try apply hoare_raise.
    - cbv zeta. apply hoare_keep; [apply Hput|intros _; apply IH].
    - apply hoare_keep; [|intros cp'; apply IH].
      unfold superstep. apply hoare_keep; [now apply node_fn_memory|intros update].
      cbv zeta. apply hoare_keep; [apply Hput|intros _; apply hoare_ret]. }
  unfold run. apply hoare_keep; [apply get_tuple_keeps|intros saved].
  destruct input as [writes|].
  - cbv zeta. apply hoare_keep; [apply Hput|intros _; apply Hloop].
  - destruct saved as [cp|]; [apply Hloop|apply hoare_raise].
Qed.

(** X12.  A session touches the checkpoints of its own thread only: after
    [main], whatever its outcome, every other thread of the store has the
    checkpoints it had. *)
Theorem other_sessions_are_untouched (thread_id other user_input approval : string)
    (s : State) :
  other <> thread_id ->
  memory (main thread_id user_input approval s).2 !! other = memory s !! other.
Proof.
  intros Hne.
  set (P := fun s' : State => memory s' !! other = memory s !! other).
  assert (HP : of_memory P).
  { intros s1 s2 Heq H. unfold P in *. now rewrite <- Heq. }
  assert (Hput : forall cp, hoare P (put thread_id cp) P).
  { intros cp s1 H. unfold P in *. cbn [put snd memory].
    rewrite lookup_insert_ne by congruence. exact H. }
  assert (Hmain : hoare P (main thread_id user_input approval) P).
  { unfold main, astream, aget_state, print, logger_info, logger_warning.
    repeat first
      [ apply emit_memory; assumption | apply call_memory; assumption
      | apply hoare_getitem | apply hoare_ret | apply get_tuple_keeps
      | apply run_other_threads; assumption
      | match goal with |- hoare _ (if ?b then _ else _) _ => destruct b end
      | apply hoare_keep; [|intros ?] ]. }
  apply Hmain. reflexivity.
Qed.

(** X13.  The extraction of a sequence of blocks received in two parts is
    the extraction of the first part followed by that of the second, and a
    block that is not of type "text" adds nothing wherever it stands. *)
Theorem extraction_of_parts (first_part second_part : list ContentBlock)
    (other : ContentBlock) :
  extract_text (first_part ++ second_part) =
    extract_text first_part +:+ extract_text second_part /\
  (type other <> "text" ->
   extract_text (first_part ++ other :: second_part) =
     extract_text (first_part ++ second_part)).
Proof.
  assert (Happ : forall a b,
            extract_text (a ++ b) = extract_text a +:+ extract_text b).
  { intros a b. unfold extract_text. rewrite fold_left_app, !extract_text_from.
    now rewrite str_app_assoc. }
  split; [apply Happ|]. intros Hother. rewrite !Happ. f_equal.
  unfold extract_text. cbn [fold_left].
  destruct other; try reflexivity. contradiction Hother. reflexivity.
Qed.

End AgentProofs.

(** ** Concrete runs *)

Import Stubs.

(** An approved run of the stubs: [main] returns, the transport is called
    once at each step and the thread has five checkpoints (start, input,
    plan, results, itinerary). *)
Example approved_run :
  let run := @main (stub_world (Return tt)) "session-1" rio_request "y" fresh_process in
  run.1 = Return tt /\
  transport_calls (trace run.2) =
    [StdioSpawn "/usr/bin/python3" ["mcp_server.py"]; SessionInitialize;
     SessionListTools; SessionCallTool "search_tourism" (queries stub_strategy)] /\
  next <$> history "session-1" run.2 =
    [END; Node writer; Node executor; Node planner;
     START (initial_input rio_request)] /\
  last (trace run.2) =
    Some (Print "SUCCESS! Itinerary saved to: /home/user/itinerary.md").
Proof. cbv zeta. split; [|split; [|split]]; vm_compute; reflexivity. Qed.

(** A rejected run: the thread stays at the checkpoint before the executor. *)
Example rejected_run :
  let run := @main (stub_world (Return tt)) "session-1" rio_request "no" fresh_process in
  run.1 = Return tt /\
  next <$> history "session-1" run.2 =
    [Node executor; Node planner; START (initial_input rio_request)] /\
  last (trace run.2) =
    Some (Log "WARNING" "Plan rejected by user. Terminating process.").
Proof. cbv zeta. split; [|split]; vm_compute; reflexivity. Qed.

Lemma rejection_makes_no_transport_call_witness :
  transport_calls
    (trace (@main (stub_world (Return tt)) "session-1" rio_request "n"
              fresh_process).2) = [].
Proof.
  apply (@rejection_makes_no_transport_call (stub_world (Return tt))
           "session-1" rio_request "n" fresh_process).
  vm_compute. discriminate.
Defined.

Lemma fields_set_in_order_and_kept_witness :
  Forall (fun cp => pipeline_order (values cp) /\
                    (values cp = empty_state \/
                     user_request (values cp) = Some rio_request))
    (history "session-1"
       (@main (stub_world (Return tt)) "session-1" rio_request "y"
          fresh_process).2).
Proof.
  apply (@fields_set_in_order_and_kept (stub_world (Return tt))
           "session-1" rio_request "y" fresh_process).
  reflexivity.
Defined.

(** C3 as stated fails: the session was started and has a checkpoint; after
    the process has exited and started again the thread has none, and the
    resumed run raises, while the uninterrupted run returns the itinerary. *)
Lemma resume_after_restart_has_no_checkpoint :
  let started :=
    (@astream (stub_world (Return tt)) (Some (initial_input rio_request))
       "session-1" fresh_process).2 in
  is_Some (latest "session-1" started) /\
  latest "session-1" (restart started) = None /\
  (ainvoke None "session-1" (restart started)).1 =
    Raise (Exn "EmptyInputError" "Received no input for __start__" None) /\
  exists final,
    (@ainvoke_uninterrupted (stub_world (Return tt))
       (Some (initial_input rio_request)) "session-1" fresh_process).1 =
      Return final /\
    final_itinerary final = Some stub_trip.
Proof.
  cbv zeta. split; [|split; [|split]].
  - vm_compute. eauto.
  - vm_compute. reflexivity.
  - vm_compute. reflexivity.
  - eexists. split; vm_compute; reflexivity.
Qed.

(** C5 as stated fails: when the handshake times out, what the executor
    raises is the group in which the exits of the session and of the stdio
    client have put the [TimeoutError]; it is what the [except] clause
    caught, not a [ToolExecutionError]. *)
Lemma failure_is_not_wrapped :
  let st := mkAgentState (Some rio_request) (Some stub_strategy) None None in
  let r := (@executor_node (stub_world (Raise handshake_timeout)) st fresh_process).1 in
  r = Raise (task_group_error (task_group_error handshake_timeout)) /\
  exc_type (task_group_error (task_group_error handshake_timeout)) =
    "ExceptionGroup" /\
  ~ exists msg cause, r = Raise (Exn "ToolExecutionError" msg cause).
Proof.
  cbv zeta. split; [|split].
  - vm_compute. reflexivity.
  - reflexivity.
  - intros (msg & cause & H). vm_compute in H. discriminate H.
Qed.

Lemma transport_failure_is_reraised_as_is_witness :
  (@main (stub_world (Raise handshake_timeout)) "session-1" rio_request "Y"
     fresh_process).1 =
    Raise (task_group_error (task_group_error handshake_timeout)).
Proof.
  apply (@transport_failure_is_reraised_as_is (stub_world (Raise handshake_timeout))
           "session-1" rio_request "Y" stub_strategy handshake_timeout fresh_process).
  - reflexivity.
  - right. split; [reflexivity|]. left. reflexivity.
  - reflexivity.
Defined.

Lemma extraction_concatenates_text_blocks_witness :
  (@executor_node (stub_world (Return tt))
     (mkAgentState (Some rio_request) (Some stub_strategy) None None)
     fresh_process).1 =
    Return (mkAgentState None None
              (Some "### Results for: 'Santa Teresa guide' (two more sections)") None).
Proof.
  destruct (@extraction_concatenates_text_blocks (stub_world (Return tt)))
    as (_ & _ & Hex).
  rewrite (Hex (mkAgentState (Some rio_request) (Some stub_strategy) None None)
             stub_strategy ["search_tourism"] stub_blocks fresh_process
             eq_refl eq_refl eq_refl eq_refl eq_refl).
  reflexivity.
Defined.

Lemma planning_failure_ends_before_the_prompt_witness :
  (@main stub_world_unplanned "session-1" rio_request "y" fresh_process).1 =
    Raise quota_exceeded.
Proof.
  apply (@planning_failure_ends_before_the_prompt stub_world_unplanned
           "session-1" rio_request "y" quota_exceeded fresh_process);
    reflexivity.
Defined.

Lemma approved_run_completes_witness :
  (@main (stub_world (Return tt)) "session-1" rio_request "Y" fresh_process).1 =
    Return tt.
Proof.
  apply (@approved_run_completes (stub_world (Return tt)) "session-1" rio_request
           "Y" stub_strategy ["search_tourism"] stub_blocks stub_trip
           (Some "itinerary.md") fresh_process);
    reflexivity.
Defined.

Lemma tool_process_released_iff_spawned_witness :
  closes
    (trace (@executor_node (stub_world (Raise handshake_timeout))
              (mkAgentState (Some rio_request) (Some stub_strategy) None None)
              fresh_process).2) = [StdioClose].
Proof.
  apply (@tool_process_released_iff_spawned (stub_world (Raise handshake_timeout))
           (mkAgentState (Some rio_request) (Some stub_strategy) None None)
           stub_strategy fresh_process).
  reflexivity.
Defined.

Lemma nodes_need_their_inputs_witness :
  (@executor_node (stub_world (Return tt)) (initial_input rio_request)
     fresh_process).1 = Raise (Exn "KeyError" "'search_strategy'" None).
Proof.
  rewrite (proj1 (@nodes_need_their_inputs (stub_world (Return tt))
                    (initial_input rio_request) fresh_process) eq_refl).
  reflexivity.
Defined.

Lemma only_y_approves_witness :
  (@main (stub_world (Return tt)) "session-1" rio_request "yes" fresh_process).1 =
    Return tt.
Proof.
  apply (@only_y_approves (stub_world (Return tt)) "session-1" rio_request "yes"
           stub_strategy fresh_process);
    [reflexivity | discriminate | discriminate].
Defined.

Lemma other_sessions_are_untouched_witness :
  memory (@main (stub_world (Return tt)) "session-1" rio_request "y"
            fresh_process).2 !! "session-2" = None.
Proof.
  rewrite (@other_sessions_are_untouched (stub_world (Return tt)) "session-1"
             "session-2" rio_request "y" fresh_process) by discriminate.
  reflexivity.
Defined.

Lemma extraction_of_parts_witness :
  extract_text ([TextContent "Lapa"] ++ ImageContent "iVBORw0KGgo" "image/png" ::
                [TextContent " at night"]) =
  extract_text ([TextContent "Lapa"] ++ [TextContent " at night"]).
Proof.
  apply (extraction_of_parts [TextContent "Lapa"] [TextContent " at night"]
           (ImageContent "iVBORw0KGgo" "image/png")).
  discriminate.
Defined.

End AgentProofs.
